(** * linkedin-automation-tool: the card-evaluation core of [browse.py]

    A shallow embedding of [browse.py] and of the wrapper [BrowserClient.py]:
    the Insight Parser, the Inline Connect Actuator, the Card Eligibility
    Gate and the Search Result Collector, over an abstract Selenium driver;
    and of what runs on their results: [linkedin_profile.py], [model.py]
    and the loop of [main.py].

    - Python [str] is a sequence of Unicode code points ([list N]).
    - Python exceptions are values [Exn kind context]; [context] is the
      exception that was being handled when this one was raised (Python's
      implicit chaining, [__context__]).  Messages are not modelled.
    - Code that talks to the browser lives in a state-and-error monad [M]
      whose state holds the driver's world and the history of operations.
    - [print] has no effect on the modelled state. *)

From Stdlib Require Import String Ascii NArith ZArith Lia Bool List.
Import ListNotations.

Set Implicit Arguments.
Local Open Scope Z_scope.

(* ================================================================== *)
(** ** Exceptions and results *)

(** The classes of [selenium.common.exceptions] that [browse.py] names in
    its [except] clauses.  A constructor stands for the instances of its
    class, subclasses included; [OtherWebDriverException] stands for every
    driver error that is an instance of none of them. *)
Inductive selenium_exception : Type :=
| NoSuchElementException
| StaleElementReferenceException
| InvalidSelectorException
| ElementNotInteractableException
| ElementClickInterceptedException
| InvalidElementStateException
| OtherWebDriverException.

Inductive exn_class : Type :=
| Selenium (s : selenium_exception)
| AttributeError
| ValueError
| InsightsNotFoundException
| LowMutualConnectionsError
| ConnectButtonError
| PopupButtonError
| InsightParseException
| InlineConnectException.

#[warnings="-register-all"]
Inductive exn : Type :=
| Exn (cls : exn_class) (context : option exn).

Definition class_of (e : exn) : exn_class :=
  match e with Exn c _ => c end.

Definition context_of (e : exn) : option exn :=
  match e with Exn _ c => c end.

Definition selenium_exception_eqb (a b : selenium_exception) : bool :=
  match a, b with
  | NoSuchElementException, NoSuchElementException
  | StaleElementReferenceException, StaleElementReferenceException
  | InvalidSelectorException, InvalidSelectorException
  | ElementNotInteractableException, ElementNotInteractableException
  | ElementClickInterceptedException, ElementClickInterceptedException
  | InvalidElementStateException, InvalidElementStateException
  | OtherWebDriverException, OtherWebDriverException => true
  | _, _ => false
  end.

Definition exn_class_eqb (a b : exn_class) : bool :=
  match a, b with
  | Selenium x, Selenium y => selenium_exception_eqb x y
  | AttributeError, AttributeError
  | ValueError, ValueError
  | InsightsNotFoundException, InsightsNotFoundException
  | LowMutualConnectionsError, LowMutualConnectionsError
  | ConnectButtonError, ConnectButtonError
  | PopupButtonError, PopupButtonError
  | InsightParseException, InsightParseException
  | InlineConnectException, InlineConnectException => true
  | _, _ => false
  end.

(** [except (C1, ..., Cn)]: does the raised exception belong to one of the
    listed classes? *)
Definition isinstance (e : exn) (classes : list exn_class) : bool :=
  existsb (exn_class_eqb (class_of e)) classes.

Inductive result (A : Type) : Type :=
| Ok (a : A)
| Raise (e : exn).
Arguments Ok {A} a.
Arguments Raise {A} e.

(* ================================================================== *)
(** ** Strings *)

(** A Python [str]: its code points. *)
Definition str : Type := list N.

Definition str_of_string (s : string) : str :=
  map N_of_ascii (list_ascii_of_string s).

Definition str_eqb (a b : str) : bool :=
  if list_eq_dec N.eq_dec a b then true else false.

(** The interpreter's Unicode database is not part of the repository: the
    decimal-digit property of a code point ([unicodedata.decimal]) is a
    parameter.  [\d] of [re] and [int] both go through it. *)
Class UnicodeData : Type :=
  { decimal : N -> option N }.

(** [int] refuses a text of more digits than the interpreter allows
    ([sys.get_int_max_str_digits()], 4300 unless configured otherwise; 0
    turns the check off, and interpreters without the check behave as
    with 0).  The limit is a parameter too. *)
Class Interpreter : Type :=
  { int_max_str_digits : nat }.

Definition cpython_default : Interpreter := {| int_max_str_digits := 4300 |}.

(** The ASCII digits, enough for the texts in the examples. *)
Definition ascii_decimal (c : N) : option N :=
  if ((48 <=? c) && (c <=? 57))%N then Some (c - 48)%N else None.

Definition ascii_digits : UnicodeData := {| decimal := ascii_decimal |}.

(* ================================================================== *)
(** ** Insight Parser *)

Section Parser.
Context {ud : UnicodeData} {py : Interpreter}.

Definition is_digit (c : N) : bool :=
  match decimal c with Some _ => true | None => false end.

Definition digit_val (c : N) : Z :=
  match decimal c with Some v => Z.of_N v | None => 0 end.

(** A pending match is closed when the scan leaves it. *)
Definition flush (run : str) : list str :=
  match run with
  | [] => []
  | _ => [rev run]
  end.

(** [re.findall(r'\d+', s)]: the scan goes left to right, a match takes as
    many digits as follow, and the scan resumes after the match.  [run]
    holds the digits of the match in progress, newest first. *)
Fixpoint findall_digits_from (run : str) (s : str) : list str :=
  match s with
  | [] => flush run
  | c :: s' =>
      if is_digit c then findall_digits_from (c :: run) s'
      else flush run ++ findall_digits_from [] s'
  end.

Definition findall_digits (s : str) : list str :=
  findall_digits_from [] s.

(** Has the text more digits than [int] converts? *)
Definition over_int_limit (digits : str) : bool :=
  ((0 <? int_max_str_digits) && (int_max_str_digits <? length digits))%nat.

(** [int(text)] on a string of decimal digits: [ValueError] over the
    limit, the number otherwise. *)
Definition int (digits : str) : result Z :=
  if over_int_limit digits then Raise (Exn ValueError None)
  else Ok (fold_left (fun acc c => 10 * acc + digit_val c) digits 0).

Definition get_mutual_connection_count_from_card_insights_text
    (insight_string : str) : result Z :=
  let match_ := findall_digits insight_string in
  if negb (Nat.eqb (length match_) 1) then
    Raise (Exn InsightParseException None)
  else
    int (nth 0 match_ []).

(** *** The spec's words: maximal digit runs *)

Definition all_digits (r : str) : Prop := Forall (fun c => is_digit c = true) r.
Definition no_digit (g : str) : Prop := Forall (fun c => is_digit c = false) g.

(** The text right after a run does not go on with a digit. *)
Definition run_ends (rest : str) : Prop :=
  match rest with
  | [] => True
  | c :: _ => is_digit c = false
  end.

(** [maximal_digit_runs s rs]: [s] reads gap, run, gap, run, ..., gap
    where the gaps hold no digit, and every run is a non-empty block of
    digits that no neighbouring digit extends; [rs] lists the runs from
    left to right. *)
Inductive maximal_digit_runs : str -> list str -> Prop :=
| runs_done gap :
    no_digit gap -> maximal_digit_runs gap []
| runs_more gap run rest rs :
    no_digit gap -> run <> [] -> all_digits run -> run_ends rest ->
    maximal_digit_runs rest rs ->
    maximal_digit_runs (gap ++ run ++ rest) (run :: rs).

(** The integer a block of digits denotes, by place value. *)
Fixpoint integer_value (run : str) : Z :=
  match run with
  | [] => 0
  | c :: r => digit_val c * 10 ^ Z.of_nat (length r) + integer_value r
  end.

End Parser.

(* ================================================================== *)
(** ** The browser: Selenium's driver and elements *)

Inductive By : Type := By_XPATH | By_CSS_SELECTOR.

(** What a driver command answers: a value, or one of its exceptions. *)
Inductive reply (A : Type) : Type :=
| Returns (a : A)
| Throws (e : selenium_exception).
Arguments Returns {A} a.
Arguments Throws {A} e.

(** Selenium is an external library: the driver is any deterministic
    machine over some [World] (the browser, the page, the clock).  Every
    command may change the world, and so does the passing of time. *)
Class WebDriver : Type :=
  { World : Type;
    WebElement : Type;
    driver_get : str -> World -> reply unit * World;
    driver_find_element : By -> string -> World -> reply WebElement * World;
    driver_find_elements : By -> string -> World -> reply (list WebElement) * World;
    element_find_element : WebElement -> By -> string -> World -> reply WebElement * World;
    element_text : WebElement -> World -> reply str * World;
    element_is_enabled : WebElement -> World -> reply bool * World;
    element_click : WebElement -> World -> reply unit * World;
    element_get_attribute : WebElement -> string -> World -> reply (option str) * World;
    time_sleep : Z -> World -> World }.

(** The functions of [browse.py] whose invocation the history records. *)
Inductive component : Type := Parser | Actuator | Gate.

(** The history: every driver command with its answer, and every recorded
    call, oldest first. *)
Inductive Event (E : Type) : Type :=
| Ev_get (url : str) (r : reply unit)
| Ev_sleep (seconds : Z)
| Ev_driver_find_element (by_ : By) (value : string) (r : reply E)
| Ev_driver_find_elements (by_ : By) (value : string) (r : reply (list E))
| Ev_find_element (e : E) (by_ : By) (value : string) (r : reply E)
| Ev_text (e : E) (r : reply str)
| Ev_is_enabled (e : E) (r : reply bool)
| Ev_click (e : E) (r : reply unit)
| Ev_get_attribute (e : E) (name : string) (r : reply (option str))
| Ev_call (f : component).
Arguments Ev_get {E} url r.
Arguments Ev_sleep {E} seconds.
Arguments Ev_call {E} f.

Section Monad.
Context {wd : WebDriver}.

Record State : Type :=
  { world : World;
    history : list (Event WebElement) }.

Definition M (A : Type) : Type := State -> result A * State.

Definition ret {A} (a : A) : M A := fun st => (Ok a, st).

Definition bind {A B} (m : M A) (k : A -> M B) : M B :=
  fun st =>
    match m st with
    | (Ok a, st') => k a st'
    | (Raise e, st') => (Raise e, st')
    end.

Definition raise {A} (e : exn) : M A := fun st => (Raise e, st).

(** [try: body except classes as e: handler e]; an exception of another
    class goes on to the caller. *)
Definition try_except {A} (body : M A) (classes : list exn_class)
    (handler : exn -> M A) : M A :=
  fun st =>
    match body st with
    | (Raise e, st') =>
        if isinstance e classes then handler e st' else (Raise e, st')
    | r => r
    end.

(** [try: body except Exception: handler]. *)
Definition try_except_Exception {A} (body : M A) (handler : exn -> M A) : M A :=
  fun st =>
    match body st with
    | (Raise e, st') => handler e st'
    | r => r
    end.

Definition lift {A} (r : result A) : M A := fun st => (r, st).

(** [print]: standard output is taken to accept every text, so [print]
    returns and leaves the browser alone. *)
Definition print {A} (_ : A) : M unit := ret tt.

Definition of_reply {A} (r : reply A) : result A :=
  match r with
  | Returns a => Ok a
  | Throws e => Raise (Exn (Selenium e) None)
  end.

(** Run a driver command on the world and write it into the history. *)
Definition command {A} (run : World -> reply A * World)
    (ev : reply A -> Event WebElement) : M A :=
  fun st =>
    let (r, w) := run (world st) in
    (of_reply r, {| world := w; history := history st ++ [ev r] |}).

(** Record that [f] is called, then run it. *)
Definition call {A} (f : component) (m : M A) : M A :=
  fun st => m {| world := world st; history := history st ++ [Ev_call f] |}.

End Monad.

Notation "x <- m ;; k" := (bind m (fun x => k))
  (at level 61, m at next level, right associativity).
Notation "m ;; k" := (bind m (fun _ => k))
  (at level 61, right associativity).

Section Browser.
Context {wd : WebDriver}.

(** *** selenium: [WebDriver] and [WebElement] methods *)

Definition WebDriver_get (url : str) : M unit :=
  command (driver_get url) (Ev_get url).

Definition WebDriver_find_element (by_ : By) (value : string) : M WebElement :=
  command (driver_find_element by_ value) (Ev_driver_find_element by_ value).

Definition WebDriver_find_elements (by_ : By) (value : string)
    : M (list WebElement) :=
  command (driver_find_elements by_ value) (Ev_driver_find_elements by_ value).

Definition WebElement_find_element (e : WebElement) (by_ : By) (value : string)
    : M WebElement :=
  command (element_find_element e by_ value) (Ev_find_element e by_ value).

Definition WebElement_text (e : WebElement) : M str :=
  command (element_text e) (Ev_text e).

Definition WebElement_is_enabled (e : WebElement) : M bool :=
  command (element_is_enabled e) (Ev_is_enabled e).

Definition WebElement_click (e : WebElement) : M unit :=
  command (element_click e) (Ev_click e).

Definition WebElement_get_attribute (e : WebElement) (name : string)
    : M (option str) :=
  command (element_get_attribute e name) (Ev_get_attribute e name).

(** Attribute access on an [Optional[WebElement]]: [None] has none of the
    element's attributes. *)
Definition getattr {A} (o : option WebElement) (attribute : WebElement -> M A)
    : M A :=
  match o with
  | Some e => attribute e
  | None => raise (Exn AttributeError None)
  end.

(** *** BrowserClient.py *)

Definition BrowserClient_get (url : str) : M unit :=
  WebDriver_get url.

Definition BrowserClient_find_element (by_ : By) (value : string)
    : M (option WebElement) :=
  try_except_Exception
    (e <- WebDriver_find_element by_ value ;; ret (Some e))
    (fun _ => ret None).

Definition BrowserClient_find_elements (by_ : By) (value : string)
    : M (list WebElement) :=
  try_except_Exception
    (WebDriver_find_elements by_ value)
    (fun _ => ret []).

Definition BrowserClient_sleep (seconds : Z) : M unit :=
  fun st =>
    (Ok tt, {| world := time_sleep seconds (world st);
               history := history st ++ [Ev_sleep seconds] |}).

End Browser.

(* ================================================================== *)
(** ** browse.py *)

Definition MIN_MUTUAL_CONNECTIONS_TO_SEND_CONNECT : Z := 10.

(** The classes of the two kinds of [except] clause around driver calls. *)
Definition lookup_errors : list exn_class :=
  [Selenium NoSuchElementException;
   Selenium StaleElementReferenceException;
   Selenium InvalidSelectorException].

Definition click_errors : list exn_class :=
  [Selenium ElementNotInteractableException;
   Selenium ElementClickInterceptedException;
   Selenium StaleElementReferenceException;
   Selenium InvalidElementStateException].

Definition inline_causes : list exn_class :=
  [InsightsNotFoundException; InsightParseException;
   LowMutualConnectionsError;
   ConnectButtonError; PopupButtonError].

Definition connect_button_xpath : string :=
  ".//button[contains(translate(@aria-label, 'CONNECT', 'connect'), 'connect')]".
Definition popup_button_xpath : string :=
  "//button[contains(., 'Send without a note')]".
Definition insights_selector : string := "div.entity-result__insights".
Definition cards_selector : string := "div.linked-area".
Definition profile_link_xpath : string := ".//a[contains(@href, '/in/')]".

Section Browse.
Context {ud : UnicodeData} {py : Interpreter} {wd : WebDriver}.

(** Inline Connect Actuator. *)
Definition __send_connect_inline (card : WebElement) : M Z :=
  connect_button <-
    try_except
      (WebElement_find_element card By_XPATH connect_button_xpath)
      lookup_errors
      (fun e => raise (Exn ConnectButtonError (Some e))) ;;
  enabled <- WebElement_is_enabled connect_button ;;
  if negb enabled then raise (Exn ConnectButtonError None)
  else
    try_except
      (WebElement_click connect_button)
      click_errors
      (fun e => raise (Exn ConnectButtonError (Some e))) ;;
    popup_button <-
      try_except
        (popup_button <- BrowserClient_find_element By_XPATH popup_button_xpath ;;
         text <- getattr popup_button WebElement_text ;;
         print text ;;
         ret popup_button)
        lookup_errors
        (fun e => print e ;; raise (Exn PopupButtonError (Some e))) ;;
    try_except
      (getattr popup_button WebElement_click ;; ret 0)
      click_errors
      (fun e => raise (Exn PopupButtonError (Some e))).

(** Card Eligibility Gate. *)
Definition send_connect_inline (card : WebElement) : M Z :=
  try_except
    (insights_div <-
       try_except
         (insights_div <-
            WebElement_find_element card By_CSS_SELECTOR insights_selector ;;
          text <- WebElement_text insights_div ;;
          print text ;;
          ret insights_div)
         lookup_errors
         (fun e => raise (Exn InsightsNotFoundException (Some e))) ;;
     text <- WebElement_text insights_div ;;
     conn_count <-
       call Parser (lift (get_mutual_connection_count_from_card_insights_text text)) ;;
     print conn_count ;;
     if conn_count <? MIN_MUTUAL_CONNECTIONS_TO_SEND_CONNECT then
       raise (Exn LowMutualConnectionsError None)
     else
       call Actuator (__send_connect_inline card))
    inline_causes
    (fun e => raise (Exn InlineConnectException (Some e))).

(** [href and href not in profile_links]. *)
Definition truthy (href : option str) : bool :=
  match href with
  | Some (_ :: _) => true
  | _ => false
  end.

Definition contains (profile_links : list str) (href : str) : bool :=
  existsb (str_eqb href) profile_links.

(** The loop body, first block: [if try_inline: try: ... continue].
    The answer tells whether the loop goes on to the next card. *)
Definition inline_block (try_inline : bool) (card : WebElement) : M bool :=
  if try_inline then
    try_except
      (call Gate (send_connect_inline card) ;; ret true)
      [InlineConnectException]
      (fun e => print e ;; ret false)
  else ret false.

(** The loop body, second block: the profile link of the card.  The
    source appends to [profile_links] in place; here the list is handed
    on. *)
Definition link_block (profile_links : list str) (card : WebElement)
    : M (list str) :=
  try_except
    (link_elem <- WebElement_find_element card By_XPATH profile_link_xpath ;;
     href <- WebElement_get_attribute link_elem "href" ;;
     match href with
     | Some h =>
         if truthy href && negb (contains profile_links h)
         then ret (profile_links ++ [h])
         else ret profile_links
     | None => ret profile_links
     end)
    lookup_errors
    (fun e => print e ;; ret profile_links).

Definition for_card (try_inline : bool) (profile_links : list str)
    (card : WebElement) : M (list str) :=
  continue <- inline_block try_inline card ;;
  if (continue : bool) then ret profile_links
  else link_block profile_links card.

Fixpoint for_cards (try_inline : bool) (profile_links : list str)
    (cards : list WebElement) : M (list str) :=
  match cards with
  | [] => ret profile_links
  | card :: rest =>
      profile_links' <- for_card try_inline profile_links card ;;
      for_cards try_inline profile_links' rest
  end.

(** Search Result Collector. *)
Definition get_search_results (search_url : str) (try_inline : bool)
    : M (list str) :=
  BrowserClient_get search_url ;;
  BrowserClient_sleep 5 ;;
  let profile_links : list str := [] in
  cards <- BrowserClient_find_elements By_CSS_SELECTOR cards_selector ;;
  if Nat.eqb (length cards) 0 then ret profile_links
  else for_cards try_inline profile_links cards.

End Browse.

(* ================================================================== *)
(** ** A scripted results page

    A small driver to run the code on: a page is a list of cards, each with
    or without an insights region, a connect button and a profile anchor.
    Clicking a connect button opens the confirmation dialog on the cards
    that have one; lookups that match nothing throw
    [NoSuchElementException], as Selenium's do. *)

Module Page.

Record card : Type :=
  { insights : option str;        (* text of the insights region *)
    connect : option bool;        (* connect button, and whether enabled *)
    dialog : bool;                (* does connect open 'Send without a note' *)
    link : option (option str) }. (* profile anchor, and its href *)

Inductive node : Type :=
| Card (i : nat)
| Insights (i : nat)
| ConnectButton (i : nat)
| ProfileLink (i : nat)
| SendWithoutNote.

Record page : Type :=
  { cards : list card;
    dialog_open : bool;
    invitations : nat }.

Definition selects (by_ : By) (value : string) (by' : By) (value' : string) : bool :=
  match by_, by' with
  | By_XPATH, By_XPATH | By_CSS_SELECTOR, By_CSS_SELECTOR => String.eqb value value'
  | _, _ => false
  end.

Definition found {A} (o : option A) (n : node) : reply node :=
  match o with
  | Some _ => Returns n
  | None => Throws NoSuchElementException
  end.

Definition find_in_card (i : nat) (by_ : By) (value : string) (p : page)
    : reply node :=
  match nth_error (cards p) i with
  | None => Throws StaleElementReferenceException
  | Some c =>
      if selects by_ value By_CSS_SELECTOR insights_selector
      then found (insights c) (Insights i)
      else if selects by_ value By_XPATH connect_button_xpath
      then found (connect c) (ConnectButton i)
      else if selects by_ value By_XPATH profile_link_xpath
      then found (link c) (ProfileLink i)
      else Throws NoSuchElementException
  end.

Definition text_of (n : node) (p : page) : str :=
  match n with
  | Insights i =>
      match nth_error (cards p) i with
      | Some {| insights := Some t |} => t
      | _ => []
      end
  | SendWithoutNote => str_of_string "Send without a note"
  | _ => []
  end.

Definition enabled_of (n : node) (p : page) : bool :=
  match n with
  | ConnectButton i =>
      match nth_error (cards p) i with
      | Some {| connect := Some b |} => b
      | _ => false
      end
  | _ => true
  end.

Definition click_on (n : node) (p : page) : reply unit * page :=
  match n with
  | ConnectButton i =>
      match nth_error (cards p) i with
      | Some c =>
          (Returns tt,
           {| cards := cards p; dialog_open := dialog c;
              invitations := invitations p |})
      | None => (Throws StaleElementReferenceException, p)
      end
  | SendWithoutNote =>
      if dialog_open p then
        (Returns tt,
         {| cards := cards p; dialog_open := false;
            invitations := S (invitations p) |})
      else (Throws StaleElementReferenceException, p)
  | _ => (Returns tt, p)
  end.

Definition attribute_of (n : node) (name : string) (p : page) : option str :=
  match n with
  | ProfileLink i =>
      if String.eqb name "href" then
        match nth_error (cards p) i with
        | Some {| link := Some h |} => h
        | _ => None
        end
      else None
  | _ => None
  end.

#[export] Instance driver : WebDriver :=
  { World := page;
    WebElement := node;
    driver_get := fun _ p => (Returns tt, p);
    driver_find_element := fun by_ value p =>
      (if selects by_ value By_XPATH popup_button_xpath && dialog_open p
       then Returns SendWithoutNote
       else Throws NoSuchElementException, p);
    driver_find_elements := fun by_ value p =>
      (if selects by_ value By_CSS_SELECTOR cards_selector
       then Returns (map Card (seq 0 (length (cards p))))
       else Returns [], p);
    element_find_element := fun n by_ value p =>
      (match n with
       | Card i => find_in_card i by_ value p
       | _ => Throws NoSuchElementException
       end, p);
    element_text := fun n p => (Returns (text_of n p), p);
    element_is_enabled := fun n p => (Returns (enabled_of n p), p);
    element_click := click_on;
    element_get_attribute := fun n name p => (Returns (attribute_of n name p), p);
    time_sleep := fun _ p => p }.

Definition open (cs : list card) : State :=
  {| world := {| cards := cs; dialog_open := false; invitations := 0 |};
     history := [] |}.

(** The cards of the examples. *)
Definition url (s : string) : option (option str) := Some (Some (str_of_string s)).

(** 15 mutual connections and a working connect flow. *)
Definition card_A : card :=
  {| insights := Some (str_of_string "Jane Doe and 15 other mutual connections");
     connect := Some true; dialog := true;
     link := url "https://www.linkedin.com/in/a" |}.

(** 5 mutual connections. *)
Definition card_B : card :=
  {| insights := Some (str_of_string "5 mutual connections");
     connect := Some true; dialog := true;
     link := url "https://www.linkedin.com/in/b" |}.

(** No insights region and no profile link. *)
Definition card_C : card :=
  {| insights := None; connect := Some true; dialog := true; link := None |}.

(** Enough mutual connections, but connect opens no
    'Send without a note' dialog. *)
Definition card_D : card :=
  {| insights := Some (str_of_string "10 mutual connections");
     connect := Some true; dialog := false;
     link := url "https://www.linkedin.com/in/d" |}.

(** Eligible, with a disabled connect button. *)
Definition card_E : card :=
  {| insights := Some (str_of_string "12 mutual connections");
     connect := Some false; dialog := true;
     link := url "https://www.linkedin.com/in/e" |}.

(** 9 mutual connections. *)
Definition card_F : card :=
  {| insights := Some (str_of_string "9 mutual connections");
     connect := Some true; dialog := true;
     link := url "https://www.linkedin.com/in/b" |}.

(** An anchor without an href, and one with an empty href. *)
Definition card_G : card :=
  {| insights := None; connect := None; dialog := false; link := Some None |}.
Definition card_H : card :=
  {| insights := None; connect := None; dialog := false; link := Some (Some []) |}.

(** Two numbers in the insights text. *)
Definition card_I : card :=
  {| insights := Some (str_of_string "10 mutual connections, 500 followers");
     connect := Some true; dialog := true;
     link := url "https://www.linkedin.com/in/i" |}.

Definition b_url : str := str_of_string "https://www.linkedin.com/in/b".

(** A page on which the confirmation dialog is showing. *)
Definition dialog_showing (cs : list card) : State :=
  {| world := {| cards := cs; dialog_open := true; invitations := 0 |};
     history := [] |}.

Definition search_url : str :=
  str_of_string "https://www.linkedin.com/search/results/people/?keywords=24".

End Page.

(* ================================================================== *)
(** ** Vocabulary of the properties *)

Definition str_eq_dec : forall a b : str, {a = b} + {a <> b} :=
  list_eq_dec N.eq_dec.

(** The spec's words: each URL once, in first-seen order. *)
Fixpoint first_seen (urls : list str) : list str :=
  match urls with
  | [] => []
  | u :: later => u :: remove str_eq_dec u (first_seen later)
  end.

Section Vocabulary.
Context {wd : WebDriver}.

(** [emits P m]: whatever the state, running [m] only appends to the
    history, and every event it appends satisfies [P]. *)
Definition emits {A} (P : Event WebElement -> Prop) (m : M A) : Prop :=
  forall st, exists evs,
    history (snd (m st)) = history st ++ evs /\ Forall P evs.

Definition is_get_attribute (ev : Event WebElement) : bool :=
  match ev with
  | Ev_get_attribute _ _ _ => true
  | _ => false
  end.

(** The profile URL an event yields: a non-empty [href] that
    [get_attribute] returned. *)
Definition href_of (ev : Event WebElement) : list str :=
  match ev with
  | Ev_get_attribute _ name (Returns (Some (c :: h))) =>
      if String.eqb name "href" then [c :: h] else []
  | _ => []
  end.

(** The URLs the cards yielded during a stretch of history, in order. *)
Definition yielded_urls (evs : list (Event WebElement)) : list str :=
  flat_map href_of evs.

(** The Collector's rule for one yielded URL. *)
Definition add_link (profile_links : list str) (h : str) : list str :=
  if contains profile_links h then profile_links else profile_links ++ [h].

(** [collects m links]: when [m] returns, it returns [links] extended, by
    that rule, with the URLs yielded during its run. *)
Definition collects (m : M (list str)) (links : list str) : Prop :=
  forall st links' st',
    m st = (Ok links', st') ->
    exists evs,
      history st' = history st ++ evs
      /\ links' = fold_left add_link (yielded_urls evs) links.

End Vocabulary.

(* ================================================================== *)
(** ** browse.py, the entry point *)

Section BrowseProfiles.
Context {ud : UnicodeData} {py : Interpreter} {wd : WebDriver}.

Definition browse_profiles (try_inline : bool) : M (list str) :=
  let search_url : str :=
    str_of_string
      "https://www.linkedin.com/search/results/people/?keywords=24&network=%5B%22S%22%5D&origin=FACETED_SEARCH&schoolFilter=%5B%22157265%22%5D&sid=ZDR" in
  get_search_results search_url try_inline.

End BrowseProfiles.

(* ================================================================== *)
(** ** linkedin_profile.py *)

Definition h1_selector : string := "h1".
Definition headline_selector : string := "div.text-body-medium".
Definition about_button_xpath : string := "//button[contains(., 'About')]".
Definition about_section_xpath : string := "//section[contains(@id,'about')]".
Definition page_connect_xpath : string := "//button[contains(., 'Connect')]".
Definition send_button_xpath : string :=
  "//button[contains(., 'Send now') or contains(., 'Send')]".

(** The line feed of the f-string in [extract_profile_info]. *)
Definition LF : N := 10%N.

Section LinkedinProfile.
Context {wd : WebDriver}.

(** [elem.text if elem else ""]: a [WebElement] is always truthy, so the
    test tells [None] from an element. *)
Definition text_if (elem : option WebElement) : M str :=
  match elem with
  | Some e => WebElement_text e
  | None => ret []
  end.

Definition extract_profile_info : M str :=
  try_except_Exception
    (BrowserClient_sleep 3 ;;
     name_elem <- BrowserClient_find_element By_CSS_SELECTOR h1_selector ;;
     headline_elem <- BrowserClient_find_element By_CSS_SELECTOR headline_selector ;;
     name <- text_if name_elem ;;
     headline <- text_if headline_elem ;;
     let about_section : str := [] in
     about_button <- BrowserClient_find_element By_XPATH about_button_xpath ;;
     about_section <-
       match about_button with
       | Some button =>
           WebElement_click button ;;
           BrowserClient_sleep 1 ;;
           about_elem <- BrowserClient_find_element By_XPATH about_section_xpath ;;
           text_if about_elem
       | None => ret about_section
       end ;;
     ret (name ++ [LF] ++ headline ++ [LF] ++ about_section))
    (fun e => print e ;; ret []).

Definition send_connect : M bool :=
  try_except_Exception
    (connect_button <- BrowserClient_find_element By_XPATH page_connect_xpath ;;
     match connect_button with
     | Some connect_button =>
         WebElement_click connect_button ;;
         BrowserClient_sleep 1 ;;
         send_button <- BrowserClient_find_element By_XPATH send_button_xpath ;;
         match send_button with
         | Some send_button =>
             WebElement_click send_button ;;
             BrowserClient_sleep 1 ;;
             ret true
         | None => ret false
         end
     | None => ret false
     end)
    (fun e => print e ;; ret false).

End LinkedinProfile.

(* ================================================================== *)
(** ** model.py *)

(** [str.lower] belongs to the interpreter's Unicode database as well, and
    is a parameter. *)
Class CaseMapping : Type :=
  { lower : str -> str }.

(** Lower case on the ASCII letters, for the examples. *)
Definition ascii_lower_char (c : N) : N :=
  if ((65 <=? c) && (c <=? 90))%N then (c + 32)%N else c.

Definition ascii_lower : CaseMapping := {| lower := map ascii_lower_char |}.

Fixpoint startswith (s prefix : str) : bool :=
  match prefix, s with
  | [], _ => true
  | _ :: _, [] => false
  | p :: prefix', c :: s' => N.eqb p c && startswith s' prefix'
  end.

(** [kw in text] on strings: [kw] occurs somewhere in [text]. *)
Fixpoint str_in (kw text : str) : bool :=
  startswith text kw ||
  match text with
  | [] => false
  | _ :: text' => str_in kw text'
  end.

Definition iit_keywords : list str :=
  map str_of_string ["iit"%string; "indian institute of technology"%string].

Definition company_keywords : list str :=
  map str_of_string
    ["google"%string; "microsoft"%string; "amazon"%string; "facebook"%string; "meta"%string; "apple"%string; "netflix"%string;
     "adobe"%string; "uber"%string; "airbnb"%string; "linkedin"%string; "flipkart"%string; "ola"%string; "swiggy"%string;
     "zomato"%string].

Definition technical_roles : list str :=
  map str_of_string
    ["engineer"%string; "developer"%string; "cto"%string; "technical"%string; "data scientist"%string; "ai"%string;
     "ml"%string; "product manager"%string; "software"%string; "architect"%string].

(** [any(kw in profile for kw in keywords)]. *)
Definition any_in (keywords : list str) (profile : str) : bool :=
  existsb (fun kw => str_in kw profile) keywords.

Section Model.
Context {cm : CaseMapping}.

Definition score_profile (profile_text : str) : bool :=
  let profile := lower profile_text in
  let is_iit := any_in iit_keywords profile in
  let is_well_known_company := any_in company_keywords profile in
  let is_technical_role := any_in technical_roles profile in
  let score :=
    Z.b2z is_iit + Z.b2z is_well_known_company + Z.b2z is_technical_role in
  2 <=? score.

End Model.

(* ================================================================== *)
(** ** main.py: the loop over the collected profiles *)

Section Main.
Context {cm : CaseMapping} {wd : WebDriver}.

(** One pass of [while to_visit:] for a URL not yet visited, up to the
    closing [browser.sleep(10)]. *)
Definition visit (url : str) : M unit :=
  print url ;;
  BrowserClient_get url ;;
  BrowserClient_sleep 5 ;;
  text <- extract_profile_info ;;
  print text ;;
  (if score_profile text then
     print tt ;;
     sent <- send_connect ;;
     if (sent : bool) then print tt else print tt
   else print tt) ;;
  ret tt.

(** [while to_visit: url = to_visit.pop(0); ...].  Nothing is appended to
    [to_visit] in the loop, so the loop runs down the list.  The set
    [visited] is kept as the list of its members; the loop only tests
    membership and adds.  The answer is [visited] when the loop ends. *)
Fixpoint main_loop (visited : list str) (to_visit : list str) : M (list str) :=
  match to_visit with
  | [] => ret visited
  | url :: to_visit' =>
      if contains visited url then main_loop visited to_visit'
      else
        visit url ;;
        let visited' := visited ++ [url] in
        BrowserClient_sleep 10 ;;
        main_loop visited' to_visit'
  end.

End Main.

(* ================================================================== *)
(** ** A scripted profile site

    A second driver to run the code on: a site maps URLs to profile pages;
    [get] opens the page of a URL and fails on an unknown one.  A page
    may have a name, a headline, an About button that reveals a section,
    and a Connect button whose click may show a Send button. *)

Module Site.

Record profile : Type :=
  { name : option str;
    headline : option str;
    about : option str;       (* the About button's section, if any *)
    connect : bool;           (* is there a Connect button *)
    confirm : bool }.         (* does Connect bring up a Send button *)

Inductive node : Type :=
| Name | Headline | AboutButton | AboutSection | ConnectButton | SendButton.

Record browser : Type :=
  { site : list (str * profile);
    current : option profile;
    about_open : bool;
    dialog_open : bool;
    requests : nat }.

Fixpoint page_of (pages : list (str * profile)) (url : str) : option profile :=
  match pages with
  | [] => None
  | (u, p) :: rest => if str_eqb u url then Some p else page_of rest url
  end.

Definition navigate (url : str) (b : browser) : reply unit * browser :=
  match page_of (site b) url with
  | Some p =>
      (Returns tt,
       {| site := site b; current := Some p; about_open := false;
          dialog_open := false; requests := requests b |})
  | None => (Throws OtherWebDriverException, b)
  end.

Definition when (present : bool) (n : node) : reply node :=
  if present then Returns n else Throws NoSuchElementException.

Definition is_some {A} (o : option A) : bool :=
  match o with Some _ => true | None => false end.

Definition find_on_page (by_ : By) (value : string) (b : browser) : reply node :=
  match current b with
  | None => Throws NoSuchElementException
  | Some p =>
      if Page.selects by_ value By_CSS_SELECTOR h1_selector
      then when (is_some (name p)) Name
      else if Page.selects by_ value By_CSS_SELECTOR headline_selector
      then when (is_some (headline p)) Headline
      else if Page.selects by_ value By_XPATH about_button_xpath
      then when (is_some (about p)) AboutButton
      else if Page.selects by_ value By_XPATH about_section_xpath
      then when (is_some (about p) && about_open b) AboutSection
      else if Page.selects by_ value By_XPATH page_connect_xpath
      then when (connect p) ConnectButton
      else if Page.selects by_ value By_XPATH send_button_xpath
      then when (dialog_open b) SendButton
      else Throws NoSuchElementException
  end.

Definition or_empty (o : option str) : str :=
  match o with Some t => t | None => [] end.

Definition text_of (n : node) (b : browser) : str :=
  match current b, n with
  | Some p, Name => or_empty (name p)
  | Some p, Headline => or_empty (headline p)
  | Some p, AboutSection => or_empty (about p)
  | _, AboutButton => str_of_string "About"
  | _, ConnectButton => str_of_string "Connect"
  | _, SendButton => str_of_string "Send now"
  | _, _ => []
  end.

Definition click_on (n : node) (b : browser) : reply unit * browser :=
  match n, current b with
  | AboutButton, Some p =>
      (Returns tt,
       {| site := site b; current := current b; about_open := true;
          dialog_open := dialog_open b; requests := requests b |})
  | ConnectButton, Some p =>
      (Returns tt,
       {| site := site b; current := current b; about_open := about_open b;
          dialog_open := confirm p; requests := requests b |})
  | SendButton, Some p =>
      if dialog_open b then
        (Returns tt,
         {| site := site b; current := current b; about_open := about_open b;
            dialog_open := false; requests := S (requests b) |})
      else (Throws StaleElementReferenceException, b)
  | _, _ => (Throws StaleElementReferenceException, b)
  end.

#[export] Instance driver : WebDriver :=
  { World := browser;
    WebElement := node;
    driver_get := navigate;
    driver_find_element := fun by_ value b => (find_on_page by_ value b, b);
    driver_find_elements := fun _ _ b => (Returns [], b);
    element_find_element := fun _ _ _ b => (Throws NoSuchElementException, b);
    element_text := fun n b => (Returns (text_of n b), b);
    element_is_enabled := fun _ b => (Returns true, b);
    element_click := click_on;
    element_get_attribute := fun _ _ b => (Returns None, b);
    time_sleep := fun _ b => b }.

Definition start (pages : list (str * profile)) : State :=
  {| world := {| site := pages; current := None; about_open := false;
                 dialog_open := false; requests := 0 |};
     history := [] |}.

(** An IIT engineer with an About section and a working Connect flow. *)
Definition asha : profile :=
  {| name := Some (str_of_string "Asha Rao");
     headline := Some (str_of_string "Software Engineer, IIT Kharagpur");
     about := Some (str_of_string "Builds compilers.");
     connect := true; confirm := true |}.

(** Neither an IIT, nor a known company, nor a technical role; no About. *)
Definition ravi : profile :=
  {| name := Some (str_of_string "Ravi Sen");
     headline := Some (str_of_string "Cook");
     about := None; connect := true; confirm := true |}.

(** A match whose Connect click brings up no Send button. *)
Definition mina : profile :=
  {| name := Some (str_of_string "Mina Das");
     headline := Some (str_of_string "Developer at Google");
     about := None; connect := true; confirm := false |}.

(** A page without a Connect button. *)
Definition nobody : profile :=
  {| name := None; headline := None; about := None;
     connect := false; confirm := false |}.

Definition asha_url : str := str_of_string "https://www.linkedin.com/in/asha".
Definition ravi_url : str := str_of_string "https://www.linkedin.com/in/ravi".
Definition mina_url : str := str_of_string "https://www.linkedin.com/in/mina".
Definition lost_url : str := str_of_string "https://www.linkedin.com/in/lost".

Definition pages : list (str * profile) :=
  [(asha_url, asha); (ravi_url, ravi); (mina_url, mina)].

(** A list to visit that names a profile twice. *)
Definition revisits : list str := [asha_url; ravi_url; asha_url; mina_url].

(** The site with a profile page already open. *)
Definition opened (p : profile) : State :=
  {| world := {| site := pages; current := Some p; about_open := false;
                 dialog_open := false; requests := 0 |};
     history := [] |}.

End Site.

(* ================================================================== *)
(** ** A page with a covered dialog

    A third driver: one eligible card whose connect click goes through and
    whose 'Send without a note' control is found, but covered: the click
    on it is intercepted. *)

Module Overlay.

Inductive node : Type := Card | Insights | ConnectButton | Popup.

Definition find_in_card (by_ : By) (value : string) : reply node :=
  if Page.selects by_ value By_CSS_SELECTOR insights_selector
  then Returns Insights
  else if Page.selects by_ value By_XPATH connect_button_xpath
  then Returns ConnectButton
  else Throws NoSuchElementException.

#[export] Instance driver : WebDriver :=
  { World := unit;
    WebElement := node;
    driver_get := fun _ w => (Returns tt, w);
    driver_find_element := fun by_ value w =>
      (if Page.selects by_ value By_XPATH popup_button_xpath
       then Returns Popup
       else Throws NoSuchElementException, w);
    driver_find_elements := fun _ _ w => (Returns [Card], w);
    element_find_element := fun n by_ value w =>
      (match n with
       | Card => find_in_card by_ value
       | _ => Throws NoSuchElementException
       end, w);
    element_text := fun n w =>
      (Returns match n with
               | Insights => str_of_string "25 mutual connections"
               | _ => []
               end, w);
    element_is_enabled := fun _ w => (Returns true, w);
    element_click := fun n w =>
      (match n with
       | Popup => Throws ElementClickInterceptedException
       | _ => Returns tt
       end, w);
    element_get_attribute := fun _ _ w => (Returns None, w);
    time_sleep := fun _ w => w }.

Definition start : State := {| world := tt; history := [] |}.

End Overlay.

(* ================================================================== *)
(** ** A page that has gone stale

    A fourth driver: every lookup answers with an element, and reading the
    text of any element fails. *)

Module Gone.

#[export] Instance driver : WebDriver :=
  { World := unit;
    WebElement := unit;
    driver_get := fun _ w => (Returns tt, w);
    driver_find_element := fun _ _ w => (Returns tt, w);
    driver_find_elements := fun _ _ w => (Returns [], w);
    element_find_element := fun _ _ _ w => (Returns tt, w);
    element_text := fun _ w => (Throws StaleElementReferenceException, w);
    element_is_enabled := fun _ w => (Returns true, w);
    element_click := fun _ w => (Returns tt, w);
    element_get_attribute := fun _ _ w => (Returns None, w);
    time_sleep := fun _ w => w }.

Definition start : State := {| world := tt; history := [] |}.

End Gone.

(** The results page of the examples, after [browse_profiles] ran on it. *)
Definition browsed : State :=
  snd (@browse_profiles ascii_digits cpython_default Page.driver true
         (Page.open [Page.card_B; Page.card_A; Page.card_F; Page.card_I])).

(* ================================================================== *)
(** ** More vocabulary: what a stretch of history holds *)

Section Observations.
Context {wd : WebDriver}.

(** A click, whatever its outcome. *)
Definition is_click (ev : Event WebElement) : bool :=
  match ev with
  | Ev_click _ _ => true
  | _ => false
  end.

(** A click that went through. *)
Definition is_done_click (ev : Event WebElement) : bool :=
  match ev with
  | Ev_click _ (Returns _) => true
  | _ => false
  end.

(** A whole-page lookup of one element. *)
Definition is_page_lookup (ev : Event WebElement) : bool :=
  match ev with
  | Ev_driver_find_element _ _ _ => true
  | _ => false
  end.

(** Neither a click nor a call of the Parser, Actuator or Gate. *)
Definition is_passive (ev : Event WebElement) : bool :=
  match ev with
  | Ev_click _ _ | Ev_call _ => false
  | _ => true
  end.

Definition is_navigation (ev : Event WebElement) : bool :=
  match ev with
  | Ev_get _ _ => true
  | _ => false
  end.

(** The URLs that [get] was asked to load, in order. *)
Definition navigations (evs : list (Event WebElement)) : list str :=
  flat_map (fun ev => match ev with Ev_get url _ => [url] | _ => [] end) evs.

(** The elements a lookup answered with. *)
Definition listed {A} (r : reply (list A)) : list A :=
  match r with
  | Returns l => l
  | Throws _ => []
  end.


(** Did reading a text or clicking fail in this stretch of history? *)
Definition command_failed (evs : list (Event WebElement)) : bool :=
  existsb (fun ev => match ev with
                     | Ev_text _ (Throws _) | Ev_click _ (Throws _) => true
                     | _ => false
                     end) evs.

(** [elem.text if elem else ""] on the driver's side: the text of the
    element a lookup answered with, or the empty string, without a
    command, when the lookup found nothing. *)
Definition reading (r : reply WebElement) (w : World) : reply str * World :=
  match r with
  | Returns e => element_text e w
  | Throws _ => (Returns [], w)
  end.

Definition reading_events (r : reply WebElement) (t : str)
    : list (Event WebElement) :=
  match r with
  | Returns e => [Ev_text e (Returns t)]
  | Throws _ => []
  end.

End Observations.

(* ================================================================== *)
(** ** The Insight Parser and maximal digit runs *)

Section ParserFacts.
Context {ud : UnicodeData} {py : Interpreter}.

Lemma findall_digits_from_digits (r run rest : str) :
  all_digits r ->
  findall_digits_from run (r ++ rest) = findall_digits_from (rev r ++ run) rest.
Proof.
  intros Hr. revert run.
  induction Hr as [|c r Hc _ IH]; intros run; simpl.
  - reflexivity.
  - rewrite Hc, IH, <- app_assoc. reflexivity.
Qed.

Lemma findall_digits_from_gap (g rest : str) :
  no_digit g ->
  findall_digits_from [] (g ++ rest) = findall_digits_from [] rest.
Proof.
  induction 1 as [|c g Hc _ IH]; simpl.
  - reflexivity.
  - rewrite Hc. exact IH.
Qed.

Lemma findall_digits_from_end (run rest : str) :
  run <> [] -> run_ends rest ->
  findall_digits_from run rest = rev run :: findall_digits_from [] rest.
Proof.
  intros Hrun Hend.
  destruct run as [|d run]; [contradiction|].
  destruct rest as [|c rest]; simpl in *.
  - reflexivity.
  - rewrite Hend. reflexivity.
Qed.

(** The scan finds the maximal digit runs and nothing else. *)
Lemma findall_digits_sound (s : str) (rs : list str) :
  maximal_digit_runs s rs -> findall_digits s = rs.
Proof.
  unfold findall_digits.
  induction 1 as [gap Hgap | gap run rest rs Hgap Hne Hrun Hend _ IH].
  - rewrite <- (app_nil_r gap), findall_digits_from_gap by assumption.
    reflexivity.
  - rewrite findall_digits_from_gap by assumption.
    rewrite findall_digits_from_digits by assumption.
    rewrite app_nil_r, findall_digits_from_end, rev_involutive, IH.
    + reflexivity.
    + intros E. apply Hne. rewrite <- (rev_involutive run), E. reflexivity.
    + assumption.
Qed.

Lemma maximal_digit_runs_gap_cons (c : N) (s : str) (rs : list str) :
  is_digit c = false -> maximal_digit_runs s rs -> maximal_digit_runs (c :: s) rs.
Proof.
  intros Hc Hs. destruct Hs as [gap Hgap | gap run rest rs Hgap Hne Hrun Hend Hrest].
  - apply runs_done. constructor; assumption.
  - change (c :: gap ++ run ++ rest) with ((c :: gap) ++ run ++ rest).
    apply runs_more; try assumption. constructor; assumption.
Qed.

Lemma findall_digits_from_complete (s : str) :
  (forall run, run <> [] -> all_digits run ->
               maximal_digit_runs (rev run ++ s) (findall_digits_from run s))
  /\ maximal_digit_runs s (findall_digits_from [] s).
Proof.
  induction s as [|c s [IHrun IHnil]].
  - split.
    + intros run Hne Hrun. destruct run as [|d run]; [contradiction|].
      cbn [findall_digits_from flush].
      apply (runs_more (gap := []) (rest := [])).
      * constructor.
      * intros E. apply (f_equal (@length N)) in E.
        rewrite length_rev in E. discriminate E.
      * apply Forall_rev. exact Hrun.
      * exact I.
      * apply runs_done. constructor.
    + apply runs_done. constructor.
  - split.
    + intros run Hne Hrun. cbn [findall_digits_from].
      destruct (is_digit c) eqn:Hc.
      * replace (rev run ++ c :: s) with (rev (c :: run) ++ s)
          by (simpl; rewrite <- app_assoc; reflexivity).
        apply IHrun; [discriminate | constructor; assumption].
      * destruct run as [|d run]; [contradiction|].
        cbn [flush app].
        apply (runs_more (gap := []) (rest := c :: s)).
        -- constructor.
        -- intros E. apply (f_equal (@length N)) in E.
           rewrite length_rev in E. discriminate E.
        -- apply Forall_rev. exact Hrun.
        -- exact Hc.
        -- apply maximal_digit_runs_gap_cons; assumption.
    + cbn [findall_digits_from].
      destruct (is_digit c) eqn:Hc.
      * apply (IHrun [c]); [discriminate | repeat constructor; assumption].
      * cbn [flush app]. apply maximal_digit_runs_gap_cons; assumption.
Qed.

(** Every string has its list of maximal digit runs. *)
Lemma findall_digits_complete (s : str) :
  maximal_digit_runs s (findall_digits s).
Proof. apply findall_digits_from_complete. Qed.

Lemma maximal_digit_runs_exist (s : str) :
  exists rs, maximal_digit_runs s rs.
Proof. exists (findall_digits s). apply findall_digits_complete. Qed.

Lemma maximal_digit_runs_unique (s : str) (rs rs' : list str) :
  maximal_digit_runs s rs -> maximal_digit_runs s rs' -> rs = rs'.
Proof.
  intros H H'. apply findall_digits_sound in H, H'. congruence.
Qed.

Lemma fold_left_place_value (digits : str) (acc : Z) :
  fold_left (fun a c => 10 * a + digit_val c) digits acc
  = acc * 10 ^ Z.of_nat (length digits) + integer_value digits.
Proof.
  revert acc. induction digits as [|c r IH]; intros acc.
  - simpl. lia.
  - cbn [fold_left integer_value length]. rewrite IH.
    rewrite Nat2Z.inj_succ, Z.pow_succ_r by lia. lia.
Qed.

Lemma int_integer_value (digits : str) :
  int digits
  = if over_int_limit digits then Raise (Exn ValueError None)
    else Ok (integer_value digits).
Proof.
  unfold int. destruct (over_int_limit digits); [reflexivity|].
  rewrite fold_left_place_value. f_equal; lia.
Qed.

(** C4 (as the code has it). The Parser raises [InsightParseException]
    when its input has no maximal digit run or has two or more.  When the
    input has exactly one, the Parser returns the integer value of that
    run, unless the run has more digits than [int] converts: then [int]
    raises [ValueError], and so does the Parser.  Every input has a list
    of maximal digit runs, so one of the cases always applies; the Parser
    is a function of its input alone and changes nothing. *)
Theorem C4_parser_exactly_one_digit_run (insight_string : str) (runs : list str) :
  maximal_digit_runs insight_string runs ->
  get_mutual_connection_count_from_card_insights_text insight_string
  = match runs with
    | [run] =>
        if over_int_limit run then Raise (Exn ValueError None)
        else Ok (integer_value run)
    | _ => Raise (Exn InsightParseException None)
    end.
Proof.
  intros Hruns. apply findall_digits_sound in Hruns.
  unfold get_mutual_connection_count_from_card_insights_text.
  rewrite Hruns.
  destruct runs as [|run [|run' runs]]; try reflexivity.
  cbn [length Nat.eqb negb nth]. apply int_integer_value.
Qed.

End ParserFacts.

Lemma C4_parser_witness :
  @get_mutual_connection_count_from_card_insights_text ascii_digits
    cpython_default
    (str_of_string "Jane Doe, John Smith, and 12 other mutual connections")
  = Ok 12.
Proof.
  exact (@C4_parser_exactly_one_digit_run ascii_digits cpython_default _ _
           (@findall_digits_complete ascii_digits
              (str_of_string "Jane Doe, John Smith, and 12 other mutual connections"))).
Defined.

(** C4, as stated, fails on a long number: a text of 4301 digits is one
    maximal digit run, and with the interpreter's default limit the Parser
    raises [ValueError] on it instead of returning its value. *)
Lemma C4_long_run_raises_ValueError :
  @maximal_digit_runs ascii_digits (repeat 49%N 4301) [repeat 49%N 4301]
  /\ @get_mutual_connection_count_from_card_insights_text ascii_digits
       cpython_default (repeat 49%N 4301)
     = Raise (Exn ValueError None).
Proof.
  split.
  - pose proof (@findall_digits_complete ascii_digits (repeat 49%N 4301)) as H.
    replace (@findall_digits ascii_digits (repeat 49%N 4301))
      with [repeat 49%N 4301] in H by (vm_compute; reflexivity).
    exact H.
  - vm_compute. reflexivity.
Qed.

(* ================================================================== *)
(** ** What a computation writes into the history *)

Section MonadFacts.
Context {wd : WebDriver}.

Lemma emits_ret {A} P (a : A) : emits P (ret a).
Proof. intros st. exists []. split; [symmetry; apply app_nil_r | constructor]. Qed.

Lemma emits_raise {A} P (e : exn) : emits P (raise (A := A) e).
Proof. intros st. exists []. split; [symmetry; apply app_nil_r | constructor]. Qed.

Lemma emits_lift {A} P (r : result A) : emits P (lift r).
Proof. intros st. exists []. split; [symmetry; apply app_nil_r | constructor]. Qed.

Lemma emits_print {A} P (a : A) : emits P (print a).
Proof. apply emits_ret. Qed.

Lemma emits_seq {A} P (st st1 : State) (evs1 : list (Event WebElement)) (m : M A) :
  history st1 = history st ++ evs1 -> Forall P evs1 -> emits P m ->
  exists evs, history (snd (m st1)) = history st ++ evs /\ Forall P evs.
Proof.
  intros H1 HP1 Hm. destruct (Hm st1) as (evs2 & H2 & HP2).
  exists (evs1 ++ evs2). split.
  - rewrite H2, H1, app_assoc. reflexivity.
  - apply Forall_app. split; assumption.
Qed.

Lemma emits_bind {A B} P (m : M A) (k : A -> M B) :
  emits P m -> (forall a, emits P (k a)) -> emits P (bind m k).
Proof.
  intros Hm Hk st. unfold bind.
  destruct (Hm st) as (evs1 & H1 & HP1).
  destruct (m st) as [[a|e] st1]; cbn [snd] in *.
  - apply emits_seq with (evs1 := evs1); auto.
  - exists evs1. split; assumption.
Qed.

Lemma emits_try_except {A} P (body : M A) classes (handler : exn -> M A) :
  emits P body -> (forall e, emits P (handler e)) ->
  emits P (try_except body classes handler).
Proof.
  intros Hm Hk st. unfold try_except.
  destruct (Hm st) as (evs1 & H1 & HP1).
  destruct (body st) as [[a|e] st1]; cbn [snd] in *.
  - exists evs1. split; assumption.
  - destruct (isinstance e classes).
    + apply emits_seq with (evs1 := evs1); auto.
    + exists evs1. split; assumption.
Qed.

Lemma emits_try_except_Exception {A} P (body : M A) (handler : exn -> M A) :
  emits P body -> (forall e, emits P (handler e)) ->
  emits P (try_except_Exception body handler).
Proof.
  intros Hm Hk st. unfold try_except_Exception.
  destruct (Hm st) as (evs1 & H1 & HP1).
  destruct (body st) as [[a|e] st1]; cbn [snd] in *.
  - exists evs1. split; assumption.
  - apply emits_seq with (evs1 := evs1); auto.
Qed.

Lemma emits_command {A} (P : Event WebElement -> Prop)
    (run : World -> reply A * World) (ev : reply A -> Event WebElement) :
  (forall r, P (ev r)) -> emits P (command run ev).
Proof.
  intros HP st. unfold command. destruct (run (world st)) as [r w].
  exists [ev r]. split; [reflexivity | constructor; [apply HP | constructor]].
Qed.

Lemma emits_call {A} (P : Event WebElement -> Prop) (f : component) (m : M A) :
  P (Ev_call f) -> emits P m -> emits P (call f m).
Proof.
  intros HP Hm st. unfold call.
  apply emits_seq with (evs1 := [Ev_call f]); auto.
Qed.

Lemma emits_getattr {A} P (o : option WebElement) (attribute : WebElement -> M A) :
  (forall e, emits P (attribute e)) -> emits P (getattr o attribute).
Proof. intros H. destruct o; [apply H | apply emits_raise]. Qed.

Lemma emits_if {A} P (c : bool) (m1 m2 : M A) :
  emits P m1 -> emits P m2 -> emits P (if c then m1 else m2).
Proof. destruct c; auto. Qed.

Lemma emits_sleep P (seconds : Z) :
  P (Ev_sleep seconds) -> emits P (BrowserClient_sleep seconds).
Proof.
  intros HP st. exists [Ev_sleep seconds].
  split; [reflexivity | constructor; [exact HP | constructor]].
Qed.

End MonadFacts.

Ltac exec :=
  cbv beta iota zeta delta
    [__send_connect_inline send_connect_inline inline_block link_block for_card
     bind try_except try_except_Exception command call ret raise lift print
     getattr of_reply
     WebDriver_get WebDriver_find_element WebDriver_find_elements
     WebElement_find_element WebElement_text WebElement_is_enabled
     WebElement_click WebElement_get_attribute
     BrowserClient_get BrowserClient_find_element BrowserClient_find_elements
     BrowserClient_sleep
     isinstance existsb class_of exn_class_eqb selenium_exception_eqb
     lookup_errors click_errors inline_causes orb negb andb];
  cbn [world history].

Ltac step H := rewrite H; exec.

Ltac emits_steps :=
  repeat first
    [ apply emits_bind; [|intros]
    | apply emits_try_except; [|intros]
    | apply emits_try_except_Exception; [|intros]
    | apply emits_if
    | apply emits_getattr; intros
    | apply emits_call; [reflexivity|]
    | apply emits_command; intros; reflexivity
    | apply emits_ret | apply emits_raise | apply emits_print
    | apply emits_lift ].

(* ================================================================== *)
(** ** The Actuator and the Gate *)

Section GateFacts.
Context {ud : UnicodeData} {py : Interpreter} {wd : WebDriver}.

Lemma actuator_emits (card : WebElement) :
  emits (fun ev => is_get_attribute ev = false) (__send_connect_inline card).
Proof.
  unfold __send_connect_inline, WebElement_find_element,
    WebElement_is_enabled, WebElement_click, WebElement_text,
    BrowserClient_find_element, WebDriver_find_element.
  emits_steps.
Qed.

Lemma gate_emits (card : WebElement) :
  emits (fun ev => is_get_attribute ev = false) (send_connect_inline card).
Proof.
  unfold send_connect_inline, WebElement_find_element, WebElement_text.
  emits_steps.
Qed.

(** C8. When the card's connect control is found but is not enabled, the
    Actuator raises [ConnectButtonError] after exactly two driver
    commands, the lookup of the control and the [is_enabled] query: the
    control is not clicked and the popup control is never looked up. *)
Theorem C8_disabled_connect_control
    (card button : WebElement) (st : State) (w1 w2 : World) :
  element_find_element card By_XPATH connect_button_xpath (world st)
    = (Returns button, w1) ->
  element_is_enabled button w1 = (Returns false, w2) ->
  __send_connect_inline card st
  = (Raise (Exn ConnectButtonError None),
     {| world := w2;
        history := history st ++
          [Ev_find_element card By_XPATH connect_button_xpath (Returns button);
           Ev_is_enabled button (Returns false)] |}).
Proof.
  intros Hfind Henabled.
  exec. step Hfind. step Henabled.
  rewrite <- app_assoc. reflexivity.
Qed.

(** C2 (what the code does). When the connect control was found, enabled
    and clicked, and the driver's page-wide lookup of the control
    containing 'Send without a note' finds nothing (or fails in any other
    way), [BrowserClient.find_element] answers [None], reading [.text] of
    it raises [AttributeError], and that is what the Actuator raises:
    not [PopupButtonError]. *)
Theorem C2_popup_absent_raises_AttributeError
    (card button : WebElement) (st : State) (w1 w2 w3 w4 : World)
    (e : selenium_exception) :
  element_find_element card By_XPATH connect_button_xpath (world st)
    = (Returns button, w1) ->
  element_is_enabled button w1 = (Returns true, w2) ->
  element_click button w2 = (Returns tt, w3) ->
  driver_find_element By_XPATH popup_button_xpath w3 = (Throws e, w4) ->
  __send_connect_inline card st
  = (Raise (Exn AttributeError None),
     {| world := w4;
        history := history st ++
          [Ev_find_element card By_XPATH connect_button_xpath (Returns button);
           Ev_is_enabled button (Returns true);
           Ev_click button (Returns tt);
           Ev_driver_find_element By_XPATH popup_button_xpath (Throws e)] |}).
Proof.
  intros Hfind Henabled Hclick Hpopup.
  exec. step Hfind. step Henabled. step Hclick. step Hpopup.
  repeat rewrite <- app_assoc. reflexivity.
Qed.

(** C7. When the lookup of the card's insights region finds nothing, the
    Gate fails with the [InsightsNotFoundException] cause (inside the
    umbrella), and that lookup is the only thing it did: no text was read,
    neither the Parser nor the Actuator was called, nothing was clicked,
    whatever the card's connect button would have answered.  And when the
    region is there but its text does not parse (the Parser raises
    [InsightParseException]), the Gate fails with that cause right after
    the Parser's call, before any threshold test or Actuator call. *)
Theorem C7_gate_checks_in_order (card : WebElement) (st : State) :
  (forall w1,
      element_find_element card By_CSS_SELECTOR insights_selector (world st)
        = (Throws NoSuchElementException, w1) ->
      send_connect_inline card st
      = (Raise (Exn InlineConnectException
                  (Some (Exn InsightsNotFoundException
                           (Some (Exn (Selenium NoSuchElementException) None))))),
         {| world := w1;
            history := history st ++
              [Ev_find_element card By_CSS_SELECTOR insights_selector
                 (Throws NoSuchElementException)] |}))
  /\
  (forall insights_div w1 t1 w2 t w3,
      element_find_element card By_CSS_SELECTOR insights_selector (world st)
        = (Returns insights_div, w1) ->
      element_text insights_div w1 = (Returns t1, w2) ->
      element_text insights_div w2 = (Returns t, w3) ->
      get_mutual_connection_count_from_card_insights_text t
        = Raise (Exn InsightParseException None) ->
      send_connect_inline card st
      = (Raise (Exn InlineConnectException
                  (Some (Exn InsightParseException None))),
         {| world := w3;
            history := history st ++
              [Ev_find_element card By_CSS_SELECTOR insights_selector
                 (Returns insights_div);
               Ev_text insights_div (Returns t1);
               Ev_text insights_div (Returns t);
               Ev_call Parser] |})).
Proof.
  split.
  - intros w1 Hfind. exec. step Hfind. reflexivity.
  - intros d w1 t1 w2 t w3 Hfind Ht1 Ht Hparse.
    exec. step Hfind. step Ht1. step Ht. step Hparse.
    repeat rewrite <- app_assoc. reflexivity.
Qed.

(** C5. For a card whose insight text parses to the count [n]: when
    [n < 10] the Gate fails with the [LowMutualConnectionsError] cause
    and stops; when [10 <= n] it hands over to the Actuator; and the call
    of the Actuator is in the Gate's history if and only if [10 <= n]
    (so 9 is refused and 10 goes through). *)
Theorem C5_gate_threshold
    (card insights_div : WebElement) (st : State) (w1 w2 w3 : World)
    (t1 t : str) (n : Z) :
  element_find_element card By_CSS_SELECTOR insights_selector (world st)
    = (Returns insights_div, w1) ->
  element_text insights_div w1 = (Returns t1, w2) ->
  element_text insights_div w2 = (Returns t, w3) ->
  get_mutual_connection_count_from_card_insights_text t = Ok n ->
  let checked :=
    {| world := w3;
       history := history st ++
         [Ev_find_element card By_CSS_SELECTOR insights_selector
            (Returns insights_div);
          Ev_text insights_div (Returns t1);
          Ev_text insights_div (Returns t);
          Ev_call Parser] |} in
  (n < 10 ->
   send_connect_inline card st
   = (Raise (Exn InlineConnectException
               (Some (Exn LowMutualConnectionsError None))), checked))
  /\ (10 <= n ->
      send_connect_inline card st
      = try_except (call Actuator (__send_connect_inline card))
          inline_causes
          (fun e => raise (Exn InlineConnectException (Some e))) checked)
  /\ (exists evs,
         history (snd (send_connect_inline card st)) = history st ++ evs
         /\ (In (Ev_call Actuator) evs <-> 10 <= n)).
Proof.
  intros Hfind Ht1 Ht Hparse checked.
  assert (Hrun :
    send_connect_inline card st
    = if n <? 10
      then (Raise (Exn InlineConnectException
                     (Some (Exn LowMutualConnectionsError None))), checked)
      else try_except (call Actuator (__send_connect_inline card))
             inline_causes
             (fun e => raise (Exn InlineConnectException (Some e))) checked).
  { unfold send_connect_inline at 1.
    cbv beta iota zeta delta
      [bind try_except command call ret raise lift print of_reply
       WebElement_find_element WebElement_text
       isinstance existsb class_of exn_class_eqb selenium_exception_eqb
       lookup_errors orb].
    rewrite Hfind. cbn [of_reply world history]. rewrite Ht1.
    cbn [of_reply world history]. rewrite Ht. cbn [of_reply world history].
    rewrite Hparse.
    change MIN_MUTUAL_CONNECTIONS_TO_SEND_CONNECT with 10.
    subst checked. repeat rewrite <- app_assoc. cbn [app].
    destruct (n <? 10); reflexivity. }
  rewrite Hrun. destruct (Z.ltb_spec n 10) as [Hlt | Hge].
  - split; [reflexivity|]. split; [lia|].
    eexists. split; [reflexivity|]. cbn [In]. split; [|lia].
    intros [H|[H|[H|[H|[]]]]]; discriminate H.
  - split; [lia|]. split; [reflexivity|].
    destruct (actuator_emits card
                {| world := world checked;
                   history := history checked ++ [Ev_call Actuator] |})
      as (evs & Hevs & _).
    exists ([Ev_find_element card By_CSS_SELECTOR insights_selector
               (Returns insights_div);
             Ev_text insights_div (Returns t1);
             Ev_text insights_div (Returns t);
             Ev_call Parser; Ev_call Actuator] ++ evs).
    split.
    + unfold try_except, call, raise.
      destruct (__send_connect_inline card _) as [[z|e] st'];
        cbn [snd history world] in *.
      * rewrite Hevs. subst checked. cbn [history].
        repeat rewrite <- app_assoc. reflexivity.
      * destruct (isinstance e inline_causes); cbn [snd];
          rewrite Hevs; subst checked; cbn [history];
          repeat rewrite <- app_assoc; reflexivity.
    + split; [intros _; exact Hge|]. intros _.
      cbn [app In]. right. right. right. right. left. reflexivity.
Qed.

End GateFacts.

(* ================================================================== *)
(** ** The Collector *)

Section ListFacts.

Lemma contains_In (l : list str) (h : str) : contains l h = true <-> In h l.
Proof.
  unfold contains. rewrite existsb_exists. split.
  - intros (x & Hx & E). unfold str_eqb in E.
    destruct (list_eq_dec N.eq_dec h x); [subst; assumption | discriminate].
  - intros H. exists h. split; [assumption|]. unfold str_eqb.
    destruct (list_eq_dec N.eq_dec h h); congruence.
Qed.

Lemma contains_snoc (l : list str) (h x : str) :
  contains (l ++ [h]) x = contains l x || str_eqb x h.
Proof.
  unfold contains. rewrite existsb_app. cbn [existsb].
  rewrite orb_false_r. reflexivity.
Qed.

Lemma filter_new_remove_seen (acc l : list str) (h : str) :
  In h acc ->
  filter (fun x => negb (contains acc x)) (remove str_eq_dec h l)
  = filter (fun x => negb (contains acc x)) l.
Proof.
  intros Hin. induction l as [|x l IH]; [reflexivity|].
  cbn [remove filter]. destruct (str_eq_dec h x) as [E|E].
  - subst x. apply contains_In in Hin. rewrite Hin. exact IH.
  - cbn [filter]. rewrite IH. reflexivity.
Qed.

Lemma filter_new_snoc (acc l : list str) (h : str) :
  filter (fun x => negb (contains (acc ++ [h]) x)) l
  = filter (fun x => negb (contains acc x)) (remove str_eq_dec h l).
Proof.
  induction l as [|x l IH]; [reflexivity|].
  cbn [remove filter]. rewrite contains_snoc, IH.
  unfold str_eqb. destruct (str_eq_dec h x) as [E|E].
  - subst x. destruct (list_eq_dec N.eq_dec h h); [|congruence].
    rewrite orb_true_r. reflexivity.
  - destruct (list_eq_dec N.eq_dec x h); [congruence|].
    rewrite orb_false_r. reflexivity.
Qed.

(** Appending the URLs one by one, each unless already there, is the
    first-seen list of what was not there to begin with. *)
Lemma fold_add_link_first_seen (hs acc : list str) :
  fold_left add_link hs acc
  = acc ++ filter (fun x => negb (contains acc x)) (first_seen hs).
Proof.
  revert acc. induction hs as [|h hs IH]; intros acc.
  - cbn. rewrite app_nil_r. reflexivity.
  - cbn [fold_left first_seen filter]. rewrite IH. unfold add_link.
    destruct (contains acc h) eqn:Hc; cbn [negb].
    + rewrite filter_new_remove_seen by (apply contains_In; exact Hc).
      reflexivity.
    + rewrite filter_new_snoc, <- app_assoc. reflexivity.
Qed.

Lemma NoDup_remove_str (h : str) (l : list str) :
  NoDup l -> NoDup (remove str_eq_dec h l).
Proof.
  induction 1 as [|x l Hx _ IH]; cbn [remove]; [constructor|].
  destruct (str_eq_dec h x); [exact IH|].
  constructor; [|exact IH].
  intros Hin. apply in_remove in Hin. apply Hx, Hin.
Qed.

Lemma NoDup_first_seen (hs : list str) : NoDup (first_seen hs).
Proof.
  induction hs as [|h hs IH]; cbn [first_seen]; constructor.
  - apply remove_In.
  - apply NoDup_remove_str, IH.
Qed.

(** [first_seen] keeps every URL, once. *)
Lemma first_seen_In (hs : list str) (u : str) :
  In u (first_seen hs) <-> In u hs.
Proof.
  induction hs as [|h hs IH]; cbn [first_seen In]; [tauto|].
  split.
  - intros [E|Hin]; [left; exact E|].
    apply in_remove in Hin. right. apply IH, Hin.
  - intros [E|Hin]; [left; exact E|].
    destruct (str_eq_dec h u) as [E|E]; [left; exact E|].
    right. apply in_in_remove; [congruence | apply IH, Hin].
Qed.

Lemma Forall_fold_add_link (P : str -> Prop) (hs acc : list str) :
  Forall P acc -> Forall P hs -> Forall P (fold_left add_link hs acc).
Proof.
  intros Hacc Hhs. revert acc Hacc.
  induction Hhs as [|h hs Hh _ IH]; intros acc Hacc; cbn [fold_left].
  - exact Hacc.
  - apply IH. unfold add_link. destruct (contains acc h); [exact Hacc|].
    apply Forall_app. split; [exact Hacc | constructor; [exact Hh | constructor]].
Qed.

End ListFacts.

Section CollectorFacts.
Context {ud : UnicodeData} {py : Interpreter} {wd : WebDriver}.

Lemma yielded_urls_none (evs : list (Event WebElement)) :
  Forall (fun ev => is_get_attribute ev = false) evs -> yielded_urls evs = [].
Proof.
  induction 1 as [|ev evs Hev _ IH]; [reflexivity|].
  unfold yielded_urls in *. cbn [flat_map]. rewrite IH.
  destruct ev; try discriminate Hev; reflexivity.
Qed.

Lemma yielded_urls_nonempty (evs : list (Event WebElement)) :
  Forall (fun h => h <> []) (yielded_urls evs).
Proof.
  induction evs as [|ev evs IH]; [constructor|].
  unfold yielded_urls in *. cbn [flat_map]. apply Forall_app. split; [|exact IH].
  destruct ev; try constructor.
  destruct r as [[[|c h]|]|]; cbn [href_of]; try constructor.
  destruct (String.eqb name "href"); repeat constructor. discriminate.
Qed.

Lemma collects_ret (links : list str) : collects (ret links) links.
Proof.
  intros st links' st' H. inversion H; subst. exists [].
  split; [symmetry; apply app_nil_r | reflexivity].
Qed.

Lemma collects_bind {A} (m : M A) (k : A -> M (list str)) (links : list str) :
  emits (fun ev => is_get_attribute ev = false) m ->
  (forall a, collects (k a) links) ->
  collects (bind m k) links.
Proof.
  intros Hm Hk st links' st' H. unfold bind in H.
  destruct (Hm st) as (evs1 & H1 & HP1).
  destruct (m st) as [[a|e] st1]; cbn [snd] in *; [|discriminate H].
  destruct (Hk a st1 links' st' H) as (evs2 & H2 & Hl).
  exists (evs1 ++ evs2). split.
  - rewrite H2, H1, app_assoc. reflexivity.
  - unfold yielded_urls in *. rewrite flat_map_app.
    fold (yielded_urls evs1). rewrite (yielded_urls_none HP1). exact Hl.
Qed.

Lemma link_block_collects (links : list str) (card : WebElement) :
  collects (link_block links card) links.
Proof.
  intros st links' st'. exec.
  destruct (element_find_element card By_XPATH profile_link_xpath (world st))
    as [[link_elem|e] w1]; exec.
  - destruct (element_get_attribute link_elem "href" w1) as [[[h|]|e] w2]; exec.
    + destruct h as [|c h]; cbn [truthy andb].
      * intros H; inversion H; subst. eexists.
        split; [rewrite <- app_assoc; reflexivity | reflexivity].
      * destruct (contains links (c :: h)) eqn:Hc; cbn [negb];
          intros H; inversion H; subst; eexists;
          (split; [cbn [history]; rewrite <- app_assoc; reflexivity|]);
          unfold yielded_urls; cbn; unfold add_link; rewrite Hc; reflexivity.
    + intros H; inversion H; subst. eexists.
      split; [rewrite <- app_assoc; reflexivity | reflexivity].
    + destruct e; intros H; inversion H; subst; eexists;
        (split; [cbn [history]; rewrite <- app_assoc; reflexivity | reflexivity]).
  - destruct e; intros H; inversion H; subst; eexists;
      (split; [reflexivity | reflexivity]).
Qed.

Lemma inline_block_emits (try_inline : bool) (card : WebElement) :
  emits (fun ev => is_get_attribute ev = false) (inline_block try_inline card).
Proof.
  unfold inline_block. destruct try_inline; emits_steps.
Qed.

Lemma for_card_collects (try_inline : bool) (links : list str) (card : WebElement) :
  collects (for_card try_inline links card) links.
Proof.
  unfold for_card. apply collects_bind.
  - apply inline_block_emits.
  - intros [|]; [apply collects_ret | apply link_block_collects].
Qed.

Lemma for_cards_collects (try_inline : bool) (cards : list WebElement)
    (links : list str) :
  collects (for_cards try_inline links cards) links.
Proof.
  revert links. induction cards as [|card cards IH]; intros links.
  - apply collects_ret.
  - cbn [for_cards]. intros st links' st' H. unfold bind in H.
    destruct (for_card try_inline links card st) as [[links1|e] st1] eqn:Hcard;
      [|discriminate H].
    destruct (for_card_collects _ _ _ _ Hcard) as (evs1 & H1 & Hl1).
    destruct (IH links1 st1 links' st' H) as (evs2 & H2 & Hl2).
    exists (evs1 ++ evs2). split.
    + rewrite H2, H1, app_assoc. reflexivity.
    + unfold yielded_urls in *. rewrite flat_map_app, fold_left_app.
      rewrite <- Hl1. exact Hl2.
Qed.

Lemma get_search_results_collects (search_url : str) (try_inline : bool) :
  collects (get_search_results search_url try_inline) [].
Proof.
  unfold get_search_results.
  apply collects_bind; [unfold BrowserClient_get, WebDriver_get; emits_steps|].
  intros _. apply collects_bind; [apply emits_sleep; reflexivity|].
  intros _. apply collects_bind;
    [unfold BrowserClient_find_elements, WebDriver_find_elements; emits_steps|].
  intros cards. destruct (Nat.eqb (length cards) 0).
  - apply collects_ret.
  - apply for_cards_collects.
Qed.

(** The loop body lets no [InlineConnectException] out: what the Gate
    reports is logged and the card falls back to its link. *)
Lemma for_card_swallows_gate_failure (try_inline : bool) (links : list str)
    (card : WebElement) (st st' : State) (e : exn) :
  for_card try_inline links card st = (Raise e, st') ->
  class_of e <> InlineConnectException.
Proof.
  unfold for_card, bind.
  destruct (inline_block try_inline card st) as [[[|]|e0] st0] eqn:Hinline.
  - discriminate.
  - revert st'. clear Hinline. exec. intros st'.
    destruct (element_find_element card By_XPATH profile_link_xpath (world st0))
      as [[link_elem|s] w1]; exec.
    + destruct (element_get_attribute link_elem "href" w1) as [[[h|]|s] w2]; exec.
      * destruct (truthy (Some h)); [destruct (contains links h)|];
          discriminate.
      * discriminate.
      * destruct s; intros H; inversion H; discriminate.
    + destruct s; intros H; inversion H; discriminate.
  - intros H; inversion H; subst e0 st0. clear H.
    unfold inline_block in Hinline. destruct try_inline; [|discriminate].
    unfold try_except in Hinline.
    match type of Hinline with context [match ?body st with _ => _ end] =>
      destruct (body st) as [[b|e1] st1] end; [discriminate|].
    destruct (isinstance e1 [InlineConnectException]) eqn:Hc;
      [discriminate|].
    inversion Hinline; subst e1 st1. intros Hcls.
    unfold isinstance in Hc. rewrite Hcls in Hc. discriminate Hc.
Qed.

End CollectorFacts.

Section CollectorClaims.
Context {ud : UnicodeData} {py : Interpreter} {wd : WebDriver}.


(** C10. Every element of the sequence the Collector returns is a
    non-empty string; and a profile anchor whose [href] is absent or
    empty leaves the list as it was. *)
Theorem C10_collector_entries_non_empty :
  (forall (search_url : str) (try_inline : bool) (st st' : State)
          (links : list str),
      get_search_results search_url try_inline st = (Ok links, st') ->
      Forall (fun h => h <> []) links)
  /\
  (forall (profile_links : list str) (card link_elem : WebElement)
          (st : State) (w1 w2 : World) (href : option str),
      element_find_element card By_XPATH profile_link_xpath (world st)
        = (Returns link_elem, w1) ->
      element_get_attribute link_elem "href" w1 = (Returns href, w2) ->
      href = None \/ href = Some [] ->
      link_block profile_links card st
      = (Ok profile_links,
         {| world := w2;
            history := history st ++
              [Ev_find_element card By_XPATH profile_link_xpath
                 (Returns link_elem);
               Ev_get_attribute link_elem "href" (Returns href)] |})).
Proof.
  split.
  - intros search_url try_inline st st' links H.
    apply get_search_results_collects in H.
    destruct H as (evs & _ & Hl). rewrite Hl.
    apply Forall_fold_add_link; [constructor | apply yielded_urls_nonempty].
  - intros profile_links card link_elem st w1 w2 href Hfind Hattr Hhref.
    exec. step Hfind. step Hattr.
    rewrite <- app_assoc.
    destruct Hhref as [E|E]; subst href; reflexivity.
Qed.

End CollectorClaims.

(* ================================================================== *)
(** ** Lookups that find nothing *)

Section LookupFacts.
Context {ud : UnicodeData} {py : Interpreter} {wd : WebDriver}.

(** The Gate lets none of its five causes out unwrapped. *)
Lemma gate_wraps_its_causes (card : WebElement) (st st' : State) (e : exn) :
  send_connect_inline card st = (Raise e, st') ->
  isinstance e inline_causes = false.
Proof.
  unfold send_connect_inline, try_except at 1.
  match goal with |- context [match ?body st with _ => _ end] =>
    destruct (body st) as [[z|e0] st0] end.
  - discriminate.
  - destruct (isinstance e0 inline_causes) eqn:Hc.
    + unfold raise. intros H; inversion H; reflexivity.
    + intros H; inversion H; subst; exact Hc.
Qed.

(** C3 (as the code has it). A whole-page lookup through
    [BrowserClient.find_element] never raises: it answers the element, or
    [None] when the driver found nothing (or failed in any other way).  A
    lookup within a card is Selenium's own and raises
    [NoSuchElementException] when it finds nothing; each of the three
    places that issue one catches it: the Actuator turns it into
    [ConnectButtonError], the Gate into [InsightsNotFoundException] inside
    [InlineConnectException], and the Collector's link block swallows it
    and keeps its list. *)
Theorem C3_not_found_by_scope (card : WebElement) (st : State) :
  (forall by_ value found w,
      driver_find_element by_ value (world st) = (Returns found, w) ->
      BrowserClient_find_element by_ value st
      = (Ok (Some found),
         {| world := w;
            history := history st ++
              [Ev_driver_find_element by_ value (Returns found)] |}))
  /\ (forall by_ value e w,
      driver_find_element by_ value (world st) = (Throws e, w) ->
      BrowserClient_find_element by_ value st
      = (Ok None,
         {| world := w;
            history := history st ++
              [Ev_driver_find_element by_ value (Throws e)] |}))
  /\ (forall w,
      element_find_element card By_XPATH connect_button_xpath (world st)
        = (Throws NoSuchElementException, w) ->
      __send_connect_inline card st
      = (Raise (Exn ConnectButtonError
                  (Some (Exn (Selenium NoSuchElementException) None))),
         {| world := w;
            history := history st ++
              [Ev_find_element card By_XPATH connect_button_xpath
                 (Throws NoSuchElementException)] |}))
  /\ (forall w,
      element_find_element card By_CSS_SELECTOR insights_selector (world st)
        = (Throws NoSuchElementException, w) ->
      send_connect_inline card st
      = (Raise (Exn InlineConnectException
                  (Some (Exn InsightsNotFoundException
                           (Some (Exn (Selenium NoSuchElementException) None))))),
         {| world := w;
            history := history st ++
              [Ev_find_element card By_CSS_SELECTOR insights_selector
                 (Throws NoSuchElementException)] |}))
  /\ (forall profile_links w,
      element_find_element card By_XPATH profile_link_xpath (world st)
        = (Throws NoSuchElementException, w) ->
      link_block profile_links card st
      = (Ok profile_links,
         {| world := w;
            history := history st ++
              [Ev_find_element card By_XPATH profile_link_xpath
                 (Throws NoSuchElementException)] |})).
Proof.
  repeat split.
  - intros by_ value found w H. exec. step H. reflexivity.
  - intros by_ value e w H. exec. step H. reflexivity.
  - intros w H. exec. step H. reflexivity.
  - intros w H. exec. step H. reflexivity.
  - intros profile_links w H. exec. step H. reflexivity.
Qed.

End LookupFacts.

(* ================================================================== *)
(** ** Runs on scripted pages *)

Module Runs.
Import Page.

#[local] Existing Instance ascii_digits.
#[local] Existing Instance cpython_default.

(** The spec's scenario: A is sent an invitation, B is below the
    threshold and its link is collected, C has neither insights nor
    link. *)
Example end_to_end_scenario :
  fst (get_search_results search_url true (open [card_A; card_B; card_C]))
  = Ok [b_url]
  /\ invitations (world (snd (get_search_results search_url true
                                (open [card_A; card_B; card_C])))) = 1%nat.
Proof. split; vm_compute; reflexivity. Qed.

Example first_seen_example :
  first_seen [[1; 2]; [3]; [1; 2]; [4]; [3]]%N = [[1; 2]; [3]; [4]]%N.
Proof. reflexivity. Qed.

Example parser_examples :
  get_mutual_connection_count_from_card_insights_text
    (str_of_string "10 mutual connections") = Ok 10
  /\ get_mutual_connection_count_from_card_insights_text
       (str_of_string "10 mutual connections, 500 followers")
     = Raise (Exn InsightParseException None)
  /\ get_mutual_connection_count_from_card_insights_text
       (str_of_string "3k followers") = Ok 3
  /\ get_mutual_connection_count_from_card_insights_text
       (str_of_string "mutual connections")
     = Raise (Exn InsightParseException None).
Proof. repeat split; vm_compute; reflexivity. Qed.

(** C1 (what the code does). On a page whose second card is eligible and
    whose connect click opens no 'Send without a note' dialog, the
    [AttributeError] raised for that card leaves the loop and
    [get_search_results]: the URL of the first card, already collected,
    is not returned and the third card is never looked at. *)
Theorem C1_failure_on_one_card_aborts_the_scan :
  fst (get_search_results search_url true (open [card_B; card_D; card_A]))
  = Raise (Exn AttributeError None)
  /\ Forall (fun ev => match ev with
                       | Ev_find_element (Card 2) _ _ _ => False
                       | _ => True
                       end)
       (history (snd (get_search_results search_url true
                        (open [card_B; card_D; card_A])))).
Proof. split; vm_compute; [reflexivity | repeat constructor]. Qed.

(** C6 (what the code does). For an eligible card whose connect click
    opens no 'Send without a note' dialog, the Gate fails with
    [AttributeError], which is not the umbrella
    [InlineConnectException]. *)
Theorem C6_gate_raises_AttributeError :
  fst (send_connect_inline (Card 0) (open [card_D]))
  = Raise (Exn AttributeError None).
Proof. vm_compute. reflexivity. Qed.

(** C3, as stated, fails within a card: the lookup of a connect control
    that is not there is answered by a raised [NoSuchElementException],
    not by an absence value, and reaches the Actuator's caller as a raised
    [ConnectButtonError]. *)
Lemma C3_card_lookup_raises_not_found :
  fst (WebElement_find_element (Card 0) By_XPATH connect_button_xpath
         (open [card_G]))
  = Raise (Exn (Selenium NoSuchElementException) None)
  /\ fst (__send_connect_inline (Card 0) (open [card_G]))
     = Raise (Exn ConnectButtonError
                (Some (Exn (Selenium NoSuchElementException) None))).
Proof. split; vm_compute; reflexivity. Qed.


Lemma C8_disabled_connect_control_witness :
  __send_connect_inline (Card 0) (open [card_E])
  = (Raise (Exn ConnectButtonError None),
     {| world := world (open [card_E]);
        history := history (open [card_E]) ++
          [Ev_find_element (Card 0) By_XPATH connect_button_xpath
             (Returns (ConnectButton 0));
           Ev_is_enabled (ConnectButton 0) (Returns false)] |}).
Proof.
  apply (C8_disabled_connect_control (wd := driver) (Card 0) (open [card_E])
           (w1 := world (open [card_E]))); reflexivity.
Defined.

Lemma C2_popup_absent_witness :
  __send_connect_inline (Card 0) (open [card_D])
  = (Raise (Exn AttributeError None),
     {| world := world (open [card_D]);
        history := history (open [card_D]) ++
          [Ev_find_element (Card 0) By_XPATH connect_button_xpath
             (Returns (ConnectButton 0));
           Ev_is_enabled (ConnectButton 0) (Returns true);
           Ev_click (ConnectButton 0) (Returns tt);
           Ev_driver_find_element By_XPATH popup_button_xpath
             (Throws NoSuchElementException)] |}).
Proof.
  apply (C2_popup_absent_raises_AttributeError (wd := driver) (Card 0) (open [card_D])
           (w1 := world (open [card_D])) (w2 := world (open [card_D]))
           (w3 := world (open [card_D]))); reflexivity.
Defined.

Lemma C5_gate_threshold_witness :
  send_connect_inline (Card 0) (open [card_F])
  = (Raise (Exn InlineConnectException
              (Some (Exn LowMutualConnectionsError None))),
     {| world := world (open [card_F]);
        history :=
          [Ev_find_element (Card 0) By_CSS_SELECTOR insights_selector
             (Returns (Insights 0));
           Ev_text (Insights 0) (Returns (str_of_string "9 mutual connections"));
           Ev_text (Insights 0) (Returns (str_of_string "9 mutual connections"));
           Ev_call Parser] |})
  /\ In (Ev_call Actuator)
       (history (snd (send_connect_inline (Card 0) (open [card_D])))).
Proof.
  split.
  - apply (C5_gate_threshold (ud := ascii_digits) (py := cpython_default)
               (wd := driver)
             (Card 0) (open [card_F])
             (insights_div := Insights 0)
             (w1 := world (open [card_F])) (w2 := world (open [card_F]))
             (w3 := world (open [card_F]))
             (t1 := str_of_string "9 mutual connections")
             (t := str_of_string "9 mutual connections") (n := 9));
      reflexivity.
  - destruct (C5_gate_threshold (ud := ascii_digits) (py := cpython_default)
               (wd := driver)
                (Card 0) (open [card_D])
                (insights_div := Insights 0)
                (w1 := world (open [card_D])) (w2 := world (open [card_D]))
                (w3 := world (open [card_D]))
                (t1 := str_of_string "10 mutual connections")
                (t := str_of_string "10 mutual connections") (n := 10))
      as (_ & _ & evs & Hh & Hiff); try reflexivity.
    rewrite Hh. apply in_or_app. right. apply Hiff. discriminate.
Defined.

Lemma C7_gate_checks_in_order_witness :
  send_connect_inline (Card 0) (open [card_C])
  = (Raise (Exn InlineConnectException
              (Some (Exn InsightsNotFoundException
                       (Some (Exn (Selenium NoSuchElementException) None))))),
     {| world := world (open [card_C]);
        history := history (open [card_C]) ++
          [Ev_find_element (Card 0) By_CSS_SELECTOR insights_selector
             (Throws NoSuchElementException)] |})
  /\ fst (send_connect_inline (Card 0) (open [card_I]))
     = Raise (Exn InlineConnectException
                (Some (Exn InsightParseException None))).
Proof.
  split.
  - apply (proj1 (C7_gate_checks_in_order (ud := ascii_digits) (py := cpython_default)
               (wd := driver)
                   (Card 0) (open [card_C]))).
    reflexivity.
  - erewrite (proj2 (C7_gate_checks_in_order (ud := ascii_digits)
                       (py := cpython_default) (wd := driver) (Card 0) (open [card_I]))
                (Insights 0) (world (open [card_I]))
                (str_of_string "10 mutual connections, 500 followers")
                (world (open [card_I]))
                (str_of_string "10 mutual connections, 500 followers")
                (world (open [card_I])));
      reflexivity.
Defined.

Lemma C10_collector_entries_non_empty_witness :
  Forall (fun h => h <> []) [b_url]
  /\ fst (link_block [b_url] (Card 1) (open [card_B; card_G])) = Ok [b_url]
  /\ fst (link_block [b_url] (Card 1) (open [card_B; card_H])) = Ok [b_url].
Proof.
  destruct (@C10_collector_entries_non_empty ascii_digits cpython_default driver)
    as [Hall Hskip].
  split; [|split].
  - apply (Hall search_url false (open [card_B; card_G; card_H])
             (snd (get_search_results search_url false
                     (open [card_B; card_G; card_H])))).
    vm_compute. reflexivity.
  - rewrite (Hskip [b_url] (Card 1) (ProfileLink 1) (open [card_B; card_G])
               (world (open [card_B; card_G])) (world (open [card_B; card_G]))
               None eq_refl eq_refl (or_introl eq_refl)).
    reflexivity.
  - rewrite (Hskip [b_url] (Card 1) (ProfileLink 1) (open [card_B; card_H])
               (world (open [card_B; card_H])) (world (open [card_B; card_H]))
               (Some []) eq_refl eq_refl (or_intror eq_refl)).
    reflexivity.
Defined.

Lemma C3_not_found_by_scope_witness :
  fst (BrowserClient_find_element By_XPATH popup_button_xpath
         (dialog_showing [card_A])) = Ok (Some SendWithoutNote)
  /\ fst (BrowserClient_find_element By_XPATH popup_button_xpath
            (open [card_A])) = Ok None
  /\ fst (__send_connect_inline (Card 0) (open [card_G]))
     = Raise (Exn ConnectButtonError
                (Some (Exn (Selenium NoSuchElementException) None)))
  /\ fst (send_connect_inline (Card 0) (open [card_C]))
     = Raise (Exn InlineConnectException
                (Some (Exn InsightsNotFoundException
                         (Some (Exn (Selenium NoSuchElementException) None)))))
  /\ fst (link_block [b_url] (Card 0) (open [card_C])) = Ok [b_url].
Proof.
  destruct (@C3_not_found_by_scope ascii_digits cpython_default driver (Card 0)
              (dialog_showing [card_A])) as (Hfound & _).
  destruct (@C3_not_found_by_scope ascii_digits cpython_default driver (Card 0)
              (open [card_A])) as (_ & Habsent & _).
  destruct (@C3_not_found_by_scope ascii_digits cpython_default driver (Card 0)
              (open [card_G])) as (_ & _ & Hbutton & _).
  destruct (@C3_not_found_by_scope ascii_digits cpython_default driver (Card 0)
              (open [card_C])) as (_ & _ & _ & Hinsights & Hlink).
  split; [|split; [|split; [|split]]].
  - rewrite (Hfound By_XPATH popup_button_xpath SendWithoutNote
               (world (dialog_showing [card_A])) eq_refl).
    reflexivity.
  - rewrite (Habsent By_XPATH popup_button_xpath NoSuchElementException
               (world (open [card_A])) eq_refl).
    reflexivity.
  - rewrite (Hbutton (world (open [card_G])) eq_refl). reflexivity.
  - rewrite (Hinsights (world (open [card_C])) eq_refl). reflexivity.
  - rewrite (Hlink [b_url] (world (open [card_C])) eq_refl). reflexivity.
Defined.

End Runs.

(* ================================================================== *)
(** ** Case analysis of a run, reply by reply *)

Ltac run :=
  cbv beta iota zeta delta
    [__send_connect_inline send_connect_inline inline_block link_block for_card
     extract_profile_info send_connect text_if visit
     bind try_except try_except_Exception command call ret raise lift print
     getattr of_reply
     WebDriver_get WebDriver_find_element WebDriver_find_elements
     WebElement_find_element WebElement_text WebElement_is_enabled
     WebElement_click WebElement_get_attribute
     BrowserClient_get BrowserClient_find_element BrowserClient_find_elements
     BrowserClient_sleep
     isinstance existsb class_of exn_class_eqb
     lookup_errors click_errors inline_causes orb negb andb
     MIN_MUTUAL_CONNECTIONS_TO_SEND_CONNECT];
  cbn [world history selenium_exception_eqb].

(** Split on the answer of the next driver command of the goal. *)
Ltac next_reply :=
  match goal with
  | |- context [driver_get ?u ?w] =>
      destruct (driver_get u w) as [[[]|?exc] ?w'] eqn:?
  | |- context [driver_find_element ?b ?v ?w] =>
      destruct (driver_find_element b v w) as [[?found|?exc] ?w'] eqn:?
  | |- context [driver_find_elements ?b ?v ?w] =>
      destruct (driver_find_elements b v w) as [[?found|?exc] ?w'] eqn:?
  | |- context [element_find_element ?e ?b ?v ?w] =>
      destruct (element_find_element e b v w) as [[?found|?exc] ?w'] eqn:?
  | |- context [element_text ?e ?w] =>
      destruct (element_text e w) as [[?txt|?exc] ?w'] eqn:?
  | |- context [element_is_enabled ?e ?w] =>
      destruct (element_is_enabled e w) as [[[|]|?exc] ?w'] eqn:?
  | |- context [element_click ?e ?w] =>
      destruct (element_click e w) as [[[]|?exc] ?w'] eqn:?
  | |- context [element_get_attribute ?e ?n ?w] =>
      destruct (element_get_attribute e n w) as [[?attr|?exc] ?w'] eqn:?
  | |- context [selenium_exception_eqb ?s _] => is_var s; destruct s
  end.

Ltac all_replies := run; repeat (next_reply; run).

(** Bring a history [((h ++ a) ++ b) ++ c] to the form [h ++ evs]. *)
Ltac as_extension :=
  cbn [history]; repeat rewrite <- app_assoc; cbn [app].

Section ParserErrors.
Context {ud : UnicodeData} {py : Interpreter}.

Lemma parser_raises_only (t : str) (e : exn) :
  get_mutual_connection_count_from_card_insights_text t = Raise e ->
  e = Exn InsightParseException None \/ e = Exn ValueError None.
Proof.
  unfold get_mutual_connection_count_from_card_insights_text, int.
  destruct (negb _); [left; congruence|].
  destruct (over_int_limit _); [right; congruence | discriminate].
Qed.

End ParserErrors.

Ltac next_step :=
  first
    [ next_reply
    | match goal with
      | |- context [get_mutual_connection_count_from_card_insights_text ?t] =>
          let Hp := fresh "Hparse" in
          destruct (get_mutual_connection_count_from_card_insights_text t)
            as [?n|?pe] eqn:Hp;
          [|apply parser_raises_only in Hp; destruct Hp; subst]
      | |- context [?n <? 10] =>
          destruct (Z.ltb_spec n 10) as [?Hlt|?Hge]
      end ].

Ltac gate_replies := run; repeat (next_step; run).

(** Find an event in an explicit list. *)
Ltac in_list := cbn [In]; repeat (first [left; reflexivity | right]).

(** The same, with the tests of the Collector's link block. *)
Ltac next_link_step :=
  first
    [ next_step
    | match goal with
      | |- context [match ?a with Some _ => _ | None => _ end] =>
          is_var a; destruct a
      | |- context [truthy (Some ?h)] => is_var h; destruct h; cbn [truthy]
      | |- context [contains ?l ?h] => destruct (contains l h) eqn:?
      end ].

Ltac collector_replies := run; repeat (next_link_step; run).

(* ================================================================== *)
(** ** More on the Actuator *)

Section ActuatorFacts.
Context {wd : WebDriver}.

(** X1. The Actuator returns only one way: it found the connect control,
    saw it enabled, clicked it, found the 'Send without a note' control,
    read its text and clicked it; the answer is then 0. *)
Theorem actuator_success_history (card : WebElement) (st st' : State) (z : Z) :
  __send_connect_inline card st = (Ok z, st') ->
  z = 0
  /\ exists button popup text,
       history st'
       = history st ++
           [Ev_find_element card By_XPATH connect_button_xpath (Returns button);
            Ev_is_enabled button (Returns true);
            Ev_click button (Returns tt);
            Ev_driver_find_element By_XPATH popup_button_xpath (Returns popup);
            Ev_text popup (Returns text);
            Ev_click popup (Returns tt)].
Proof.
  all_replies; intros H; inversion H; subst.
  split; [reflexivity|]. do 3 eexists. as_extension. reflexivity.
Qed.

End ActuatorFacts.

Section ActuatorFailures.
Context {wd : WebDriver}.

(** X2. When the Actuator fails with [ConnectButtonError], no click went
    through and the page was never searched for the popup control: the
    page is as it was. *)
Theorem actuator_ConnectButtonError_before_any_effect
    (card : WebElement) (st st' : State) (e : exn) :
  __send_connect_inline card st = (Raise e, st') ->
  class_of e = ConnectButtonError ->
  exists evs,
    history st' = history st ++ evs
    /\ forallb (fun ev => negb (is_done_click ev) && negb (is_page_lookup ev)) evs
       = true.
Proof.
  all_replies; intros H; inversion H; subst; intros Hc;
    try discriminate Hc;
    (eexists; split; [as_extension; reflexivity | reflexivity]).
Qed.

(** X3. When the Actuator fails with [PopupButtonError], the connect
    control has already been clicked and the popup control had been found:
    the failure comes from reading or clicking a control that was there,
    never from its absence, and the click on connect is not undone. *)
Theorem actuator_PopupButtonError_after_connect_click
    (card : WebElement) (st st' : State) (e : exn) :
  __send_connect_inline card st = (Raise e, st') ->
  class_of e = PopupButtonError ->
  exists button popup rest,
    history st'
    = history st ++
        [Ev_find_element card By_XPATH connect_button_xpath (Returns button);
         Ev_is_enabled button (Returns true);
         Ev_click button (Returns tt);
         Ev_driver_find_element By_XPATH popup_button_xpath (Returns popup)]
        ++ rest.
Proof.
  all_replies; intros H; inversion H; subst; intros Hc;
    try discriminate Hc;
    (do 3 eexists; as_extension; reflexivity).
Qed.


End ActuatorFailures.

(* ================================================================== *)
(** ** More on the Gate *)

Section GateRuns.
Context {ud : UnicodeData} {py : Interpreter} {wd : WebDriver}.

(** X13. A count the Parser returns is never negative. *)
Theorem parser_count_non_negative (t : str) (n : Z) :
  get_mutual_connection_count_from_card_insights_text t = Ok n -> 0 <= n.
Proof.
  unfold get_mutual_connection_count_from_card_insights_text.
  destruct (negb _); [discriminate|].
  unfold int. generalize (nth 0 (findall_digits t) []). intros digits.
  destruct (over_int_limit digits); [discriminate|].
  intros H; inversion H; subst. clear H.
  assert (Hacc : forall acc, 0 <= acc ->
            0 <= fold_left (fun a c => 10 * a + digit_val c) digits acc).
  { induction digits as [|c r IH]; intros acc Hacc; cbn [fold_left].
    - exact Hacc.
    - apply IH. unfold digit_val. destruct (decimal c); lia. }
  apply Hacc. lia.
Qed.

(** X5. The Gate attempts a click only for a card whose insights text it
    has just read and parsed to a count of at least 10: whenever its
    history holds a click, it holds the reading of a text that parses to
    such a count. *)
Theorem gate_clicks_only_when_eligible
    (card : WebElement) (st st' : State) (r : result Z) :
  send_connect_inline card st = (r, st') ->
  exists evs,
    history st' = history st ++ evs
    /\ (existsb is_click evs = true ->
        exists insights_div text n,
          In (Ev_text insights_div (Returns text)) evs
          /\ get_mutual_connection_count_from_card_insights_text text = Ok n
          /\ 10 <= n).
Proof.
  gate_replies; intros Hrun; inversion Hrun; subst;
    (eexists; split; [as_extension; reflexivity|]);
    cbn [existsb is_click orb]; intros Hclick; try discriminate Hclick;
    match goal with
    | Hp : get_mutual_connection_count_from_card_insights_text ?t = Ok ?n |- _ =>
        eexists; exists t, n; split; [in_list | split; [exact Hp | assumption]]
    end.
Qed.

(** X6. The Gate returns only one way: the insights region was found, its
    text read twice, the second reading parsed to a count of at least 10,
    and the Actuator then went through its two clicks; the answer is 0. *)
Theorem gate_success_history (card : WebElement) (st st' : State) (z : Z) :
  send_connect_inline card st = (Ok z, st') ->
  z = 0
  /\ exists insights_div t1 t n button popup ptext,
       get_mutual_connection_count_from_card_insights_text t = Ok n
       /\ 10 <= n
       /\ history st'
          = history st ++
              [Ev_find_element card By_CSS_SELECTOR insights_selector
                 (Returns insights_div);
               Ev_text insights_div (Returns t1);
               Ev_text insights_div (Returns t);
               Ev_call Parser;
               Ev_call Actuator;
               Ev_find_element card By_XPATH connect_button_xpath
                 (Returns button);
               Ev_is_enabled button (Returns true);
               Ev_click button (Returns tt);
               Ev_driver_find_element By_XPATH popup_button_xpath
                 (Returns popup);
               Ev_text popup (Returns ptext);
               Ev_click popup (Returns tt)].
Proof.
  gate_replies; intros Hrun; inversion Hrun; subst.
  split; [reflexivity|].
  match goal with
  | Hp : get_mutual_connection_count_from_card_insights_text ?t = Ok ?n |- _ =>
      eexists; eexists; exists t, n; do 3 eexists;
      split; [exact Hp | split; [assumption | as_extension; reflexivity]]
  end.
Qed.

(** X7. The Gate never raises one of its five causes bare, and an
    [InlineConnectException] it raises always carries one of the five as
    its context. *)
Theorem gate_exception_kinds (card : WebElement) (st st' : State) (e : exn) :
  send_connect_inline card st = (Raise e, st') ->
  isinstance e inline_causes = false
  /\ (class_of e = InlineConnectException ->
      exists cause,
        e = Exn InlineConnectException (Some cause)
        /\ isinstance cause inline_causes = true).
Proof.
  gate_replies; intros Hrun; inversion Hrun; subst;
    (split; [reflexivity|]); intros Hc; try discriminate Hc;
    eexists; split; reflexivity.
Qed.

End GateRuns.

(* ================================================================== *)
(** ** More on the Collector *)

Ltac emits_cases :=
  repeat first
    [ progress emits_steps
    | match goal with
      | |- emits _ (match ?x with _ => _ end) => destruct x
      end ].

Section CollectorRuns.
Context {ud : UnicodeData} {py : Interpreter} {wd : WebDriver}.

Lemma for_cards_passive (cards : list WebElement) (links : list str) :
  emits (fun ev => is_passive ev = true) (for_cards false links cards).
Proof.
  revert links. induction cards as [|card cards IH]; intros links;
    cbn [for_cards].
  - apply emits_ret.
  - apply emits_bind; [|intros; apply IH].
    unfold for_card, inline_block, link_block, WebElement_find_element,
      WebElement_get_attribute.
    emits_cases.
Qed.

(** X8. Without [try_inline] the Collector only looks: whatever the page
    answers, it clicks nothing and calls neither Gate, Parser nor
    Actuator. *)
Theorem collector_without_inline_only_looks
    (search_url : str) (st st' : State) (r : result (list str)) :
  get_search_results search_url false st = (r, st') ->
  exists evs,
    history st' = history st ++ evs /\ forallb is_passive evs = true.
Proof.
  intros Hrun.
  assert (He : emits (fun ev => is_passive ev = true)
                 (get_search_results search_url false)).
  { unfold get_search_results, BrowserClient_get, WebDriver_get,
      BrowserClient_find_elements, WebDriver_find_elements.
    apply emits_bind; [emits_steps|intros _].
    apply emits_bind; [apply emits_sleep; reflexivity|intros _].
    apply emits_bind; [emits_steps|intros cards].
    apply emits_if; [apply emits_ret | apply for_cards_passive]. }
  destruct (He st) as (evs & Hh & Hp). rewrite Hrun in Hh. cbn [snd] in Hh.
  exists evs. split; [exact Hh|].
  apply forallb_forall. rewrite Forall_forall in Hp. exact Hp.
Qed.

(** X9. When the page shows no card, or the driver fails to list the
    cards, the Collector returns the empty list right after the lookup,
    without an error: it loaded the page, waited 5 and looked once. *)
Theorem collector_empty_page
    (search_url : str) (try_inline : bool) (st : State) (w1 w2 : World)
    (r : reply (list WebElement)) :
  driver_get search_url (world st) = (Returns tt, w1) ->
  driver_find_elements By_CSS_SELECTOR cards_selector (time_sleep 5 w1)
    = (r, w2) ->
  listed r = [] ->
  get_search_results search_url try_inline st
  = (Ok [],
     {| world := w2;
        history := history st ++
          [Ev_get search_url (Returns tt);
           Ev_sleep 5;
           Ev_driver_find_elements By_CSS_SELECTOR cards_selector r] |}).
Proof.
  intros Hget Hfind Hnone. unfold get_search_results. run.
  rewrite Hget. run. rewrite Hfind. run.
  destruct r as [cards|s]; cbn [listed] in Hnone; [subst cards|];
    cbn [length Nat.eqb]; as_extension; reflexivity.
Qed.

(** X10. When loading the search page fails, the Collector passes the
    driver's exception on as it is and does nothing more: no wait, no
    lookup. *)
Theorem collector_navigation_failure
    (search_url : str) (try_inline : bool) (st : State) (w1 : World)
    (s : selenium_exception) :
  driver_get search_url (world st) = (Throws s, w1) ->
  get_search_results search_url try_inline st
  = (Raise (Exn (Selenium s) None),
     {| world := w1;
        history := history st ++ [Ev_get search_url (Throws s)] |}).
Proof.
  intros Hget. unfold get_search_results. run. rewrite Hget. reflexivity.
Qed.

Lemma for_card_adds_at_most_one (try_inline : bool) (links links' : list str)
    (card : WebElement) (st st' : State) :
  for_card try_inline links card st = (Ok links', st') ->
  (length links' <= S (length links))%nat.
Proof.
  unfold for_card, bind.
  destruct (inline_block try_inline card st) as [[[|]|e] st1].
  - intros H; inversion H; subst. lia.
  - revert st'. collector_replies; intros st' H; inversion H; subst;
      try rewrite length_app; cbn [length]; lia.
  - discriminate.
Qed.

Lemma for_cards_adds_at_most_one_each (try_inline : bool)
    (cards : list WebElement) (links links' : list str) (st st' : State) :
  for_cards try_inline links cards st = (Ok links', st') ->
  (length links' <= length links + length cards)%nat.
Proof.
  revert links st. induction cards as [|card cards IH]; intros links st;
    cbn [for_cards].
  - intros H; inversion H; subst. cbn [length]. lia.
  - unfold bind.
    destruct (for_card try_inline links card st) as [[links1|e] st1] eqn:Hcard;
      [|discriminate].
    intros H. apply IH in H. apply for_card_adds_at_most_one in Hcard.
    cbn [length]. lia.
Qed.

(** X11. The Collector returns at most one URL per card: the list is no
    longer than the list of cards the driver answered with. *)
Theorem collector_at_most_one_url_per_card
    (search_url : str) (try_inline : bool) (st st' : State)
    (links : list str) :
  get_search_results search_url try_inline st = (Ok links, st') ->
  exists r evs,
    history st'
    = history st ++
        [Ev_get search_url (Returns tt); Ev_sleep 5;
         Ev_driver_find_elements By_CSS_SELECTOR cards_selector r] ++ evs
    /\ (length links <= length (listed r))%nat.
Proof.
  unfold get_search_results. run. next_reply; run; [|discriminate].
  next_reply; run.
  - destruct (Nat.eqb (length found) 0).
    + intros H; inversion H; subst. exists (Returns found), [].
      split; [as_extension; reflexivity | cbn [length]; lia].
    + intros H. pose proof (for_cards_adds_at_most_one_each _ _ _ _ H) as Hlen.
      apply for_cards_collects in H. destruct H as (evs & Hh & _).
      exists (Returns found), evs. split; [|exact Hlen].
      rewrite Hh. as_extension. reflexivity.
  - cbn [length Nat.eqb]. intros H; inversion H; subst.
    exists (Throws exc), []. split; [as_extension; reflexivity | cbn; lia].
Qed.




Lemma for_card_raises_none_of_its_own (try_inline : bool) (links : list str)
    (card : WebElement) (st st' : State) (e : exn) :
  for_card try_inline links card st = (Raise e, st') ->
  isinstance e (InlineConnectException :: inline_causes) = false.
Proof.
  destruct try_inline; collector_replies; intros H; inversion H; subst;
    reflexivity.
Qed.

Lemma for_cards_raises_none_of_its_own (try_inline : bool)
    (cards : list WebElement) (links : list str) (st st' : State) (e : exn) :
  for_cards try_inline links cards st = (Raise e, st') ->
  isinstance e (InlineConnectException :: inline_causes) = false.
Proof.
  revert links st. induction cards as [|card cards IH]; intros links st;
    cbn [for_cards].
  - discriminate.
  - unfold bind.
    destruct (for_card try_inline links card st) as [[links1|e1] st1] eqn:Hcard.
    + apply IH.
    + intros H; inversion H; subst.
      eapply for_card_raises_none_of_its_own; eassumption.
Qed.

(** X12. None of the six exceptions of [browse.py] ever leaves
    [get_search_results]: whatever it raises is neither an
    [InlineConnectException] nor one of the five causes. *)
Theorem collector_raises_none_of_its_own
    (search_url : str) (try_inline : bool) (st st' : State) (e : exn) :
  get_search_results search_url try_inline st = (Raise e, st') ->
  isinstance e
    [InlineConnectException; InsightsNotFoundException; InsightParseException;
     LowMutualConnectionsError; ConnectButtonError; PopupButtonError]
  = false.
Proof.
  unfold get_search_results. run. next_reply; run.
  - next_reply; run.
    + destruct (Nat.eqb (length found) 0); [discriminate|].
      apply for_cards_raises_none_of_its_own.
    + cbn [length Nat.eqb]. discriminate.
  - intros H; inversion H; subst. reflexivity.
Qed.

End CollectorRuns.

(* ================================================================== *)
(** ** The Collector's order *)

Section CollectorOrder.
Context {ud : UnicodeData} {py : Interpreter} {wd : WebDriver}.





End CollectorOrder.

(* ================================================================== *)
(** ** linkedin_profile.py *)

Section ProfileFacts.
Context {wd : WebDriver}.

(** X14. What [extract_profile_info] returns is what it read from the
    page.  Name and headline are the texts of the elements that the two
    lookups answered with, and empty for a lookup that found nothing.
    Without an About button the third field is empty and nothing is
    clicked; with one, the button is clicked and, after the wait, the
    third field is the text of the About section, or empty when that is
    not found.  The three fields come joined by line feeds.  And the
    function returns the empty string only after reading a text or
    clicking has failed. *)
Theorem extract_profile_info_fields (st : State) :
  (forall r1 w1 r2 w2 name w3 headline w4 s w5,
      driver_find_element By_CSS_SELECTOR h1_selector (time_sleep 3 (world st))
        = (r1, w1) ->
      driver_find_element By_CSS_SELECTOR headline_selector w1 = (r2, w2) ->
      reading r1 w2 = (Returns name, w3) ->
      reading r2 w3 = (Returns headline, w4) ->
      driver_find_element By_XPATH about_button_xpath w4 = (Throws s, w5) ->
      extract_profile_info st
      = (Ok (name ++ [LF] ++ headline ++ [LF] ++ []),
         {| world := w5;
            history := history st ++
              [Ev_sleep 3;
               Ev_driver_find_element By_CSS_SELECTOR h1_selector r1;
               Ev_driver_find_element By_CSS_SELECTOR headline_selector r2]
              ++ reading_events r1 name ++ reading_events r2 headline
              ++ [Ev_driver_find_element By_XPATH about_button_xpath
                    (Throws s)] |}))
  /\
  (forall r1 w1 r2 w2 name w3 headline w4 button w5 w6 r4 w7 about w8,
      driver_find_element By_CSS_SELECTOR h1_selector (time_sleep 3 (world st))
        = (r1, w1) ->
      driver_find_element By_CSS_SELECTOR headline_selector w1 = (r2, w2) ->
      reading r1 w2 = (Returns name, w3) ->
      reading r2 w3 = (Returns headline, w4) ->
      driver_find_element By_XPATH about_button_xpath w4 = (Returns button, w5) ->
      element_click button w5 = (Returns tt, w6) ->
      driver_find_element By_XPATH about_section_xpath (time_sleep 1 w6)
        = (r4, w7) ->
      reading r4 w7 = (Returns about, w8) ->
      extract_profile_info st
      = (Ok (name ++ [LF] ++ headline ++ [LF] ++ about),
         {| world := w8;
            history := history st ++
              [Ev_sleep 3;
               Ev_driver_find_element By_CSS_SELECTOR h1_selector r1;
               Ev_driver_find_element By_CSS_SELECTOR headline_selector r2]
              ++ reading_events r1 name ++ reading_events r2 headline
              ++ [Ev_driver_find_element By_XPATH about_button_xpath
                    (Returns button);
                  Ev_click button (Returns tt);
                  Ev_sleep 1;
                  Ev_driver_find_element By_XPATH about_section_xpath r4]
              ++ reading_events r4 about |}))
  /\
  (forall st',
      extract_profile_info st = (Ok [], st') ->
      exists evs,
        history st' = history st ++ evs /\ command_failed evs = true).
Proof.
  split; [|split].
  - intros r1 w1 r2 w2 name w3 headline w4 s w5 H1 H2 H3 H4 H5.
    destruct r1 as [e1|s1], r2 as [e2|s2];
      cbn [reading reading_events] in *;
      repeat match goal with
             | H : (Returns _, _) = (Returns _, _) |- _ =>
                 inversion H; subst; clear H
             end;
      run; rewrite H1; run; rewrite H2; run;
      try (rewrite H3; run); try (rewrite H4; run);
      rewrite H5; run; as_extension; reflexivity.
  - intros r1 w1 r2 w2 name w3 headline w4 button w5 w6 r4 w7 about w8
      H1 H2 H3 H4 H5 H6 H7 H8.
    destruct r1 as [e1|s1], r2 as [e2|s2], r4 as [e4|s4];
      cbn [reading reading_events] in *;
      repeat match goal with
             | H : (Returns _, _) = (Returns _, _) |- _ =>
                 inversion H; subst; clear H
             end;
      run; rewrite H1; run; rewrite H2; run;
      try (rewrite H3; run); try (rewrite H4; run);
      rewrite H5; run; rewrite H6; run; rewrite H7; run;
      try (rewrite H8; run);
      as_extension; reflexivity.
  - all_replies; intros st' H; inversion H; subst;
      try (exfalso;
           match goal with
           | Hz : _ ++ _ = [] |- _ =>
               apply app_eq_nil in Hz; destruct Hz as [_ Hz]; discriminate Hz
           end);
      (eexists; split; [as_extension; reflexivity | reflexivity]).
Qed.

(** X15. The only thing [extract_profile_info] ever clicks is the About
    button that its lookup has just found. *)
Theorem extract_profile_info_clicks_only_About
    (st st' : State) (r : result str) :
  extract_profile_info st = (r, st') ->
  exists evs,
    history st' = history st ++ evs
    /\ forall e answer,
         In (Ev_click e answer) evs ->
         In (Ev_driver_find_element By_XPATH about_button_xpath (Returns e)) evs.
Proof.
  all_replies; intros Hrun; inversion Hrun; subst;
    (eexists; split; [as_extension; reflexivity|]);
    intros e answer Hin; cbn [In] in Hin;
    repeat (destruct Hin as [Hin|Hin];
            [try discriminate Hin; inversion Hin; subst; in_list|]);
    contradiction.
Qed.

(** X16. [send_connect] answers [True] only one way: the Connect button
    was found and clicked, and after the wait the Send button was found
    and clicked; a lookup, or a click, that failed never ends in
    [True]. *)
Theorem send_connect_true_after_both_clicks (st st' : State) :
  send_connect st = (Ok true, st') ->
  exists connect_button send_button,
    history st'
    = history st ++
        [Ev_driver_find_element By_XPATH page_connect_xpath
           (Returns connect_button);
         Ev_click connect_button (Returns tt);
         Ev_sleep 1;
         Ev_driver_find_element By_XPATH send_button_xpath
           (Returns send_button);
         Ev_click send_button (Returns tt);
         Ev_sleep 1].
Proof.
  all_replies; intros H; inversion H; subst.
  do 2 eexists. as_extension. reflexivity.
Qed.

(** X17. A control that is not there is not an error for [send_connect]:
    without a Connect button it answers [False] and clicks nothing; and
    when the Send button does not show after the click on Connect, it
    answers [False] too, the click on Connect staying done. *)
Theorem send_connect_absent_controls (st : State) :
  (forall s w1,
      driver_find_element By_XPATH page_connect_xpath (world st)
        = (Throws s, w1) ->
      send_connect st
      = (Ok false,
         {| world := w1;
            history := history st ++
              [Ev_driver_find_element By_XPATH page_connect_xpath (Throws s)] |}))
  /\
  (forall connect_button w1 w2 s w3,
      driver_find_element By_XPATH page_connect_xpath (world st)
        = (Returns connect_button, w1) ->
      element_click connect_button w1 = (Returns tt, w2) ->
      driver_find_element By_XPATH send_button_xpath (time_sleep 1 w2)
        = (Throws s, w3) ->
      send_connect st
      = (Ok false,
         {| world := w3;
            history := history st ++
              [Ev_driver_find_element By_XPATH page_connect_xpath
                 (Returns connect_button);
               Ev_click connect_button (Returns tt);
               Ev_sleep 1;
               Ev_driver_find_element By_XPATH send_button_xpath (Throws s)] |})).
Proof.
  split.
  - intros s w1 Hfind. run. rewrite Hfind. reflexivity.
  - intros connect_button w1 w2 s w3 Hfind Hclick Hsend.
    run. rewrite Hfind. run. rewrite Hclick. run. rewrite Hsend. run.
    as_extension. reflexivity.
Qed.

End ProfileFacts.

(* ================================================================== *)
(** ** model.py *)

Section SubstringFacts.

Lemma startswith_spec (s prefix : str) :
  startswith s prefix = true <-> exists rest, s = prefix ++ rest.
Proof.
  revert s. induction prefix as [|p prefix IH]; intros s.
  - destruct s; cbn; split; eauto.
  - destruct s as [|c s]; cbn [startswith].
    + split; [discriminate | intros (rest & H); discriminate H].
    + rewrite andb_true_iff, N.eqb_eq, IH. split.
      * intros (E & rest & H). subst. exists rest. reflexivity.
      * intros (rest & H). inversion H; subst. eauto.
Qed.

(** [kw in text] holds exactly when [text] reads some prefix, then [kw],
    then some suffix. *)
Lemma str_in_spec (kw text : str) :
  str_in kw text = true <-> exists before after, text = before ++ kw ++ after.
Proof.
  induction text as [|c text IH].
  - cbn [str_in]. rewrite orb_false_r, startswith_spec. split.
    + intros (rest & H). exists [], rest. exact H.
    + intros (before & after & H).
      destruct before; [|discriminate H]. exists after. exact H.
  - cbn [str_in]. rewrite orb_true_iff, startswith_spec, IH. split.
    + intros [(rest & H) | (before & after & H)].
      * exists [], rest. exact H.
      * exists (c :: before), after. rewrite H. reflexivity.
    + intros (before & after & H). destruct before as [|b before].
      * left. exists after. exact H.
      * right. inversion H; subst. exists before, after. reflexivity.
Qed.

Lemma str_in_trans (a b c : str) :
  str_in a b = true -> str_in b c = true -> str_in a c = true.
Proof.
  rewrite !str_in_spec. intros (p1 & s1 & H1) (p2 & s2 & H2). subst.
  exists (p2 ++ p1), (s1 ++ s2). repeat rewrite <- app_assoc. reflexivity.
Qed.

Lemma any_in_grows (keywords : list str) (a b : str) :
  str_in a b = true ->
  any_in keywords a = true -> any_in keywords b = true.
Proof.
  intros Hab. unfold any_in. rewrite !existsb_exists.
  intros (kw & Hin & Hkw). exists kw. split; [exact Hin|].
  eapply str_in_trans; eassumption.
Qed.

Lemma any_in_keyword (keywords : list str) (kw profile : str) :
  In kw keywords -> str_in kw profile = true -> any_in keywords profile = true.
Proof.
  intros Hin Hkw. unfold any_in. apply existsb_exists. eauto.
Qed.

End SubstringFacts.

Section ModelFacts.
Context {cm : CaseMapping}.

(** X18. A profile that mentions Airbnb is accepted on that word alone:
    'airbnb' is a company keyword and contains the role keyword 'ai', so
    two of the three tests pass whatever else the text says. *)
Theorem score_profile_airbnb_alone (profile_text : str) :
  str_in (str_of_string "airbnb") (lower profile_text) = true ->
  score_profile profile_text = true.
Proof.
  intros H. unfold score_profile. cbv zeta.
  assert (Hc : any_in company_keywords (lower profile_text) = true).
  { apply any_in_keyword with (kw := str_of_string "airbnb"); [|exact H].
    unfold company_keywords. cbn [map In]. auto 12. }
  assert (Ht : any_in technical_roles (lower profile_text) = true).
  { apply any_in_keyword with (kw := str_of_string "ai").
    - unfold technical_roles. cbn [map In]. auto 12.
    - apply str_in_trans with (b := str_of_string "airbnb");
        [vm_compute; reflexivity | exact H]. }
  rewrite Hc, Ht. destruct (any_in iit_keywords _); reflexivity.
Qed.

(** X19. More text never turns a match into a miss: when the lower-cased
    text of one profile occurs within that of another, the second is
    accepted whenever the first is. *)
Theorem score_profile_monotone (text text' : str) :
  str_in (lower text) (lower text') = true ->
  score_profile text = true -> score_profile text' = true.
Proof.
  intros Hin. unfold score_profile. cbv zeta.
  pose proof (any_in_grows iit_keywords _ _ Hin) as H1.
  pose proof (any_in_grows company_keywords _ _ Hin) as H2.
  pose proof (any_in_grows technical_roles _ _ Hin) as H3.
  destruct (any_in iit_keywords (lower text));
    destruct (any_in company_keywords (lower text));
    destruct (any_in technical_roles (lower text));
    try discriminate;
    repeat match goal with
           | H : true = true -> _ |- _ => rewrite (H eq_refl); clear H
           end;
    intros _;
    repeat match goal with
           | |- context [any_in ?k ?t] => destruct (any_in k t)
           end;
    reflexivity.
Qed.

End ModelFacts.

(* ================================================================== *)
(** ** main.py: the loop *)

Ltac emits_more :=
  repeat first
    [ progress emits_cases
    | apply emits_sleep; reflexivity ].

Section MainFacts.
Context {cm : CaseMapping} {wd : WebDriver}.

Lemma try_except_Exception_returns {A} (body : M A) (a : A) (st : State) :
  exists x st', try_except_Exception body (fun e => print e ;; ret a) st = (Ok x, st').
Proof.
  unfold try_except_Exception, bind, print, ret.
  destruct (body st) as [[x|e] st1]; eauto.
Qed.

Lemma navigations_none (evs : list (Event WebElement)) :
  Forall (fun ev => is_navigation ev = false) evs -> navigations evs = [].
Proof.
  induction 1 as [|ev evs Hev _ IH]; [reflexivity|].
  unfold navigations in *. cbn [flat_map]. rewrite IH.
  destruct ev; try discriminate Hev; reflexivity.
Qed.

Lemma navigations_app (evs1 evs2 : list (Event WebElement)) :
  navigations (evs1 ++ evs2) = navigations evs1 ++ navigations evs2.
Proof. apply flat_map_app. Qed.

Lemma extract_profile_info_stays :
  emits (fun ev => is_navigation ev = false) extract_profile_info.
Proof.
  unfold extract_profile_info, text_if, BrowserClient_find_element,
    WebDriver_find_element, WebElement_text, WebElement_click.
  emits_more.
Qed.

Lemma send_connect_stays :
  emits (fun ev => is_navigation ev = false) send_connect.
Proof.
  unfold send_connect, BrowserClient_find_element,
    WebDriver_find_element, WebElement_click.
  emits_more.
Qed.

(** A computation that returns and stays on the page. *)
Lemma returns_and_stays {A} (m : M A) (st : State) :
  emits (fun ev => is_navigation ev = false) m ->
  (exists a st', m st = (Ok a, st')) ->
  exists a st' evs,
    m st = (Ok a, st')
    /\ history st' = history st ++ evs /\ navigations evs = [].
Proof.
  intros He (a & st' & Hm). destruct (He st) as (evs & Hh & Hq).
  rewrite Hm in Hh. cbn [snd] in Hh.
  exists a, st', evs. repeat split; [exact Hm | exact Hh |].
  apply navigations_none, Hq.
Qed.

(** One visit: either the page does not load and the driver's exception
    comes out at once, or the visit completes, whatever happens on the
    page, and loads nothing else. *)
Lemma visit_outcome (url : str) (st : State) :
  (exists s w,
      visit url st
      = (Raise (Exn (Selenium s) None),
         {| world := w; history := history st ++ [Ev_get url (Throws s)] |}))
  \/ (exists st' evs,
         visit url st = (Ok tt, st')
         /\ history st' = history st ++ Ev_get url (Returns tt) :: evs
         /\ navigations evs = []).
Proof.
  unfold visit, bind, print, ret, BrowserClient_get, WebDriver_get, command,
    BrowserClient_sleep.
  destruct (driver_get url (world st)) as [[[]|s] w] eqn:Hget;
    cbn [of_reply world history]; [right | left; eauto].
  match goal with
  | |- context [extract_profile_info ?s1] =>
      destruct (returns_and_stays s1 extract_profile_info_stays
                  (try_except_Exception_returns _ _ _))
        as (text & st2 & evs1 & He & Hh1 & Hn1)
  end.
  rewrite He. cbn [history] in Hh1.
  destruct (score_profile text).
  - destruct (returns_and_stays st2 send_connect_stays
                (try_except_Exception_returns _ _ _))
      as (sent & st3 & evs2 & Hs & Hh2 & Hn2).
    rewrite Hs. exists st3, ([Ev_sleep 5] ++ evs1 ++ evs2).
    split; [destruct sent; reflexivity|]. split.
    + rewrite Hh2, Hh1. repeat rewrite <- app_assoc. reflexivity.
    + rewrite !navigations_app, Hn1, Hn2. reflexivity.
  - exists st2, ([Ev_sleep 5] ++ evs1). split; [reflexivity|]. split.
    + rewrite Hh1. repeat rewrite <- app_assoc. reflexivity.
    + rewrite navigations_app, Hn1. reflexivity.
Qed.

(** The loop, run to its end: what it loaded and what it marked. *)
Lemma main_loop_run
    (to_visit visited visited' : list str) (st st' : State) :
  main_loop visited to_visit st = (Ok visited', st') ->
  exists evs,
    history st' = history st ++ evs
    /\ navigations evs
       = filter (fun u => negb (contains visited u)) (first_seen to_visit)
    /\ visited' = visited ++ navigations evs.
Proof.
  revert visited st. induction to_visit as [|url rest IH]; intros visited st;
    cbn [main_loop].
  - intros H; inversion H; subst. exists [].
    repeat split; cbn; rewrite app_nil_r; reflexivity.
  - cbn [first_seen filter]. destruct (contains visited url) eqn:Hseen;
      cbn [negb].
    + intros H. apply IH in H. destruct H as (evs & Hh & Hn & Hv).
      exists evs. split; [exact Hh|]. split; [|exact Hv].
      rewrite Hn. symmetry. apply filter_new_remove_seen.
      apply contains_In. exact Hseen.
    + unfold bind at 1.
      destruct (visit_outcome url st)
        as [(s & w & Hvisit) | (st1 & evs1 & Hvisit & Hh1 & Hn1)];
        rewrite Hvisit; [discriminate|].
      unfold bind, BrowserClient_sleep. intros H. apply IH in H.
      cbn [history] in H. destruct H as (evs2 & Hh2 & Hn2 & Hv2).
      exists ((Ev_get url (Returns tt) :: evs1) ++ [Ev_sleep 10] ++ evs2).
      assert (Hnav :
        navigations ((Ev_get url (Returns tt) :: evs1) ++ [Ev_sleep 10] ++ evs2)
        = url :: navigations evs2).
      { rewrite !navigations_app. unfold navigations at 1.
        cbn [flat_map]. fold (navigations evs1). rewrite Hn1. reflexivity. }
      split; [|split].
      * rewrite Hh2, Hh1. repeat rewrite <- app_assoc. reflexivity.
      * rewrite Hnav, Hn2, filter_new_snoc. reflexivity.
      * rewrite Hv2, Hnav, <- app_assoc. reflexivity.
Qed.

(** X20. When the loop ends, the pages it loaded are the URLs of
    [to_visit] that were not visited before, each once and in the order
    of their first occurrence, and these are what it added to
    [visited]. *)
Theorem main_loop_loads_each_url_once
    (to_visit visited visited' : list str) (st st' : State) :
  main_loop visited to_visit st = (Ok visited', st') ->
  let fresh := filter (fun u => negb (contains visited u)) (first_seen to_visit) in
  NoDup fresh
  /\ visited' = visited ++ fresh
  /\ exists evs, history st' = history st ++ evs /\ navigations evs = fresh.
Proof.
  intros Hrun fresh. apply main_loop_run in Hrun.
  destruct Hrun as (evs & Hh & Hn & Hv). fold fresh in Hn.
  split; [|split].
  - apply NoDup_filter, NoDup_first_seen.
  - rewrite Hv, Hn. reflexivity.
  - exists evs. split; assumption.
Qed.

(** In the model the loop stops early only on a page that does not load. *)
Lemma main_loop_stops_on_navigation
    (to_visit visited : list str) (st st' : State) (e : exn) :
  main_loop visited to_visit st = (Raise e, st') ->
  exists url s evs,
    In url to_visit
    /\ e = Exn (Selenium s) None
    /\ history st' = history st ++ evs ++ [Ev_get url (Throws s)].
Proof.
  revert visited st. induction to_visit as [|url rest IH]; intros visited st;
    cbn [main_loop].
  - discriminate.
  - destruct (contains visited url).
    + intros H. apply IH in H. destruct H as (u & s & evs & Hin & He & Hh).
      exists u, s, evs. split; [right; exact Hin|]. split; assumption.
    + unfold bind at 1.
      destruct (visit_outcome url st)
        as [(s & w & Hvisit) | (st1 & evs1 & Hvisit & Hh1 & Hn1)];
        rewrite Hvisit.
      * intros H; inversion H; subst. exists url, s, [].
        split; [left; reflexivity|]. split; reflexivity.
      * unfold bind, BrowserClient_sleep. intros H. apply IH in H.
        cbn [history] in H. destruct H as (u & s & evs & Hin & He & Hh).
        exists u, s, ((Ev_get url (Returns tt) :: evs1) ++ [Ev_sleep 10] ++ evs).
        split; [right; exact Hin|]. split; [exact He|].
        rewrite Hh, Hh1. repeat rewrite <- app_assoc. reflexivity.
Qed.

(** X21. A failure of the driver stops the loop only when it is a page
    that does not load: an exception of the driver that the loop raises is
    that of a failed [get] on a URL of [to_visit], and that [get] is the
    last thing the loop did.  The driver's failures during the extraction
    of the profile and during [send_connect] do not leave the loop. *)
Theorem main_loop_driver_failure_is_navigation
    (to_visit visited : list str) (st st' : State) (e : exn)
    (s : selenium_exception) :
  main_loop visited to_visit st = (Raise e, st') ->
  class_of e = Selenium s ->
  e = Exn (Selenium s) None
  /\ exists url evs,
       In url to_visit
       /\ history st' = history st ++ evs ++ [Ev_get url (Throws s)].
Proof.
  intros Hrun Hclass. apply main_loop_stops_on_navigation in Hrun.
  destruct Hrun as (url & s' & evs & Hin & He & Hh). subst e.
  cbn [class_of] in Hclass. inversion Hclass; subst s'.
  split; [reflexivity|]. exists url, evs. split; assumption.
Qed.

End MainFacts.

Section MainAfterBrowse.
Context {ud : UnicodeData} {py : Interpreter} {cm : CaseMapping}
  {wd : WebDriver}.

Lemma filter_nothing_seen (l : list str) :
  filter (fun u => negb (contains [] u)) l = l.
Proof.
  induction l as [|x l IH]; [reflexivity|].
  cbn [filter]. change (contains [] x) with false. cbn [negb].
  rewrite IH. reflexivity.
Qed.

Lemma first_seen_NoDup (l : list str) : NoDup l -> first_seen l = l.
Proof.
  induction 1 as [|x l Hx _ IH]; [reflexivity|].
  cbn [first_seen]. rewrite IH, notin_remove by exact Hx. reflexivity.
Qed.

(** X22. [main] hands the list of [browse_profiles] to its loop with
    nothing visited: when the loop ends it has loaded exactly the URLs of
    that list, each once and in the list's order, so the test against
    [visited] never skips any of them. *)
Theorem main_loop_after_browse_profiles
    (st st1 st2 : State) (to_visit visited : list str) :
  browse_profiles true st = (Ok to_visit, st1) ->
  main_loop [] to_visit st1 = (Ok visited, st2) ->
  exists evs,
    history st2 = history st1 ++ evs
    /\ navigations evs = to_visit
    /\ visited = to_visit.
Proof.
  intros Hbrowse Hloop. unfold browse_profiles in Hbrowse.
  apply get_search_results_collects in Hbrowse.
  destruct Hbrowse as (evs0 & _ & Hlinks).
  rewrite fold_add_link_first_seen in Hlinks. cbn [app] in Hlinks.
  rewrite filter_nothing_seen in Hlinks.
  assert (Hnodup : NoDup to_visit)
    by (rewrite Hlinks; apply NoDup_first_seen).
  apply main_loop_run in Hloop.
  destruct Hloop as (evs & Hh & Hn & Hv).
  rewrite filter_nothing_seen, (first_seen_NoDup Hnodup) in Hn.
  exists evs. split; [exact Hh|]. split; [exact Hn|].
  rewrite Hv, Hn. reflexivity.
Qed.

End MainAfterBrowse.

(* ================================================================== *)
(** ** More runs on scripted pages *)

Module Checks.

#[local] Existing Instance ascii_digits.
#[local] Existing Instance cpython_default.
#[local] Existing Instance ascii_lower.

Lemma actuator_success_history_witness :
  0 = 0
  /\ exists button popup text,
       history (snd (@__send_connect_inline Page.driver (Page.Card 0)
                       (Page.open [Page.card_A])))
       = history (Page.open [Page.card_A]) ++
           [Ev_find_element (Page.Card 0) By_XPATH connect_button_xpath
              (Returns button);
            Ev_is_enabled button (Returns true);
            Ev_click button (Returns tt);
            Ev_driver_find_element By_XPATH popup_button_xpath (Returns popup);
            Ev_text popup (Returns text);
            Ev_click popup (Returns tt)].
Proof.
  apply (@actuator_success_history Page.driver (Page.Card 0)
           (Page.open [Page.card_A])).
  vm_compute. reflexivity.
Defined.

Lemma actuator_ConnectButtonError_witness :
  exists evs,
    history (snd (@__send_connect_inline Page.driver (Page.Card 0)
                    (Page.open [Page.card_E])))
    = history (Page.open [Page.card_E]) ++ evs
    /\ forallb (fun ev => negb (is_done_click ev) && negb (is_page_lookup ev)) evs
       = true.
Proof.
  apply (@actuator_ConnectButtonError_before_any_effect Page.driver
           (Page.Card 0) (Page.open [Page.card_E]) _
           (Exn ConnectButtonError None)).
  - vm_compute. reflexivity.
  - reflexivity.
Defined.

Lemma actuator_PopupButtonError_witness :
  exists button popup rest,
    history (snd (@__send_connect_inline Overlay.driver Overlay.Card
                    Overlay.start))
    = history Overlay.start ++
        [Ev_find_element Overlay.Card By_XPATH connect_button_xpath
           (Returns button);
         Ev_is_enabled button (Returns true);
         Ev_click button (Returns tt);
         Ev_driver_find_element By_XPATH popup_button_xpath (Returns popup)]
        ++ rest.
Proof.
  apply (@actuator_PopupButtonError_after_connect_click Overlay.driver
           Overlay.Card Overlay.start _
           (Exn PopupButtonError
              (Some (Exn (Selenium ElementClickInterceptedException) None)))).
  - vm_compute. reflexivity.
  - reflexivity.
Defined.


Lemma parser_count_non_negative_witness : 0 <= 12.
Proof.
  apply (@parser_count_non_negative ascii_digits cpython_default
           (str_of_string "12 mutual connections")).
  vm_compute. reflexivity.
Defined.

Lemma gate_clicks_only_when_eligible_witness :
  exists evs,
    history (snd (send_connect_inline (wd := Page.driver) (Page.Card 0)
                    (Page.open [Page.card_A])))
    = history (Page.open [Page.card_A]) ++ evs
    /\ (existsb is_click evs = true ->
        exists insights_div text n,
          In (Ev_text insights_div (Returns text)) evs
          /\ get_mutual_connection_count_from_card_insights_text text = Ok n
          /\ 10 <= n).
Proof.
  apply (@gate_clicks_only_when_eligible ascii_digits cpython_default Page.driver
           (Page.Card 0) (Page.open [Page.card_A]) _ (Ok 0)).
  vm_compute. reflexivity.
Defined.

Lemma gate_success_history_witness :
  0 = 0
  /\ exists insights_div t1 t n button popup ptext,
       get_mutual_connection_count_from_card_insights_text t = Ok n
       /\ 10 <= n
       /\ history (snd (send_connect_inline (wd := Page.driver) (Page.Card 0)
                          (Page.open [Page.card_A])))
          = history (Page.open [Page.card_A]) ++
              [Ev_find_element (Page.Card 0) By_CSS_SELECTOR insights_selector
                 (Returns insights_div);
               Ev_text insights_div (Returns t1);
               Ev_text insights_div (Returns t);
               Ev_call Parser;
               Ev_call Actuator;
               Ev_find_element (Page.Card 0) By_XPATH connect_button_xpath
                 (Returns button);
               Ev_is_enabled button (Returns true);
               Ev_click button (Returns tt);
               Ev_driver_find_element By_XPATH popup_button_xpath
                 (Returns popup);
               Ev_text popup (Returns ptext);
               Ev_click popup (Returns tt)].
Proof.
  apply (@gate_success_history ascii_digits cpython_default Page.driver (Page.Card 0)
           (Page.open [Page.card_A])).
  vm_compute. reflexivity.
Defined.

Lemma gate_exception_kinds_witness :
  isinstance
    (Exn InlineConnectException (Some (Exn LowMutualConnectionsError None)))
    inline_causes = false
  /\ (class_of
        (Exn InlineConnectException (Some (Exn LowMutualConnectionsError None)))
      = InlineConnectException ->
      exists cause,
        Exn InlineConnectException (Some (Exn LowMutualConnectionsError None))
        = Exn InlineConnectException (Some cause)
        /\ isinstance cause inline_causes = true).
Proof.
  apply (@gate_exception_kinds ascii_digits cpython_default Page.driver
           (Page.Card 0) (Page.open [Page.card_F])
           (snd (send_connect_inline (wd := Page.driver) (Page.Card 0)
                   (Page.open [Page.card_F])))).
  vm_compute. reflexivity.
Defined.

Lemma collector_without_inline_only_looks_witness :
  exists evs,
    history (snd (get_search_results (wd := Page.driver) Page.search_url false
                    (Page.open [Page.card_A; Page.card_B])))
    = history (Page.open [Page.card_A; Page.card_B]) ++ evs
    /\ forallb is_passive evs = true.
Proof.
  apply (@collector_without_inline_only_looks ascii_digits cpython_default Page.driver
           Page.search_url (Page.open [Page.card_A; Page.card_B]) _
           (fst (get_search_results (wd := Page.driver) Page.search_url false
                   (Page.open [Page.card_A; Page.card_B])))).
  vm_compute. reflexivity.
Defined.

Lemma collector_empty_page_witness :
  get_search_results (wd := Page.driver) Page.search_url true (Page.open [])
  = (Ok [],
     {| world := world (Page.open []);
        history := history (Page.open []) ++
          [Ev_get Page.search_url (Returns tt);
           Ev_sleep 5;
           Ev_driver_find_elements By_CSS_SELECTOR cards_selector
             (Returns [])] |}).
Proof.
  apply (@collector_empty_page ascii_digits cpython_default Page.driver Page.search_url true
           (Page.open []) (world (Page.open []))); reflexivity.
Defined.

Lemma collector_navigation_failure_witness :
  get_search_results (wd := Site.driver) Site.lost_url true
    (Site.start Site.pages)
  = (Raise (Exn (Selenium OtherWebDriverException) None),
     {| world := world (Site.start Site.pages);
        history := history (Site.start Site.pages) ++
          [Ev_get Site.lost_url (Throws OtherWebDriverException)] |}).
Proof.
  apply (@collector_navigation_failure ascii_digits cpython_default Site.driver).
  vm_compute. reflexivity.
Defined.

Lemma collector_at_most_one_url_per_card_witness :
  exists r evs,
    history (snd (get_search_results (wd := Page.driver) Page.search_url true
                    (Page.open [Page.card_A; Page.card_B; Page.card_C])))
    = history (Page.open [Page.card_A; Page.card_B; Page.card_C]) ++
        [Ev_get Page.search_url (Returns tt); Ev_sleep 5;
         Ev_driver_find_elements By_CSS_SELECTOR cards_selector r] ++ evs
    /\ (length [Page.b_url] <= length (listed r))%nat.
Proof.
  apply (@collector_at_most_one_url_per_card ascii_digits cpython_default Page.driver
           Page.search_url true
           (Page.open [Page.card_A; Page.card_B; Page.card_C])).
  vm_compute. reflexivity.
Defined.

Lemma collector_raises_none_of_its_own_witness :
  isinstance (Exn AttributeError None)
    [InlineConnectException; InsightsNotFoundException; InsightParseException;
     LowMutualConnectionsError; ConnectButtonError; PopupButtonError]
  = false.
Proof.
  apply (@collector_raises_none_of_its_own ascii_digits cpython_default
           Page.driver Page.search_url true
           (Page.open [Page.card_B; Page.card_D; Page.card_A])
           (snd (get_search_results (wd := Page.driver) Page.search_url true
                   (Page.open [Page.card_B; Page.card_D; Page.card_A])))).
  vm_compute. reflexivity.
Defined.


Lemma extract_profile_info_fields_witness :
  fst (@extract_profile_info Site.driver (Site.opened Site.mina))
  = Ok (str_of_string "Mina Das" ++ [LF]
        ++ str_of_string "Developer at Google" ++ [LF] ++ [])
  /\ fst (@extract_profile_info Site.driver (Site.opened Site.asha))
     = Ok (str_of_string "Asha Rao" ++ [LF]
           ++ str_of_string "Software Engineer, IIT Kharagpur" ++ [LF]
           ++ str_of_string "Builds compilers.")
  /\ exists evs,
       history (snd (@extract_profile_info Gone.driver Gone.start))
       = history Gone.start ++ evs
       /\ command_failed evs = true.
Proof.
  destruct (@extract_profile_info_fields Site.driver (Site.opened Site.mina))
    as (Hplain & _ & _).
  destruct (@extract_profile_info_fields Site.driver (Site.opened Site.asha))
    as (_ & Habout & _).
  destruct (@extract_profile_info_fields Gone.driver Gone.start)
    as (_ & _ & Hempty).
  split; [|split].
  - rewrite (Hplain (Returns Site.Name) (world (Site.opened Site.mina))
               (Returns Site.Headline) (world (Site.opened Site.mina))
               (str_of_string "Mina Das") (world (Site.opened Site.mina))
               (str_of_string "Developer at Google")
               (world (Site.opened Site.mina))
               NoSuchElementException (world (Site.opened Site.mina))
               eq_refl eq_refl eq_refl eq_refl eq_refl).
    reflexivity.
  - rewrite (Habout (Returns Site.Name) (world (Site.opened Site.asha))
               (Returns Site.Headline) (world (Site.opened Site.asha))
               (str_of_string "Asha Rao") (world (Site.opened Site.asha))
               (str_of_string "Software Engineer, IIT Kharagpur")
               (world (Site.opened Site.asha))
               Site.AboutButton (world (Site.opened Site.asha))
               (snd (Site.click_on Site.AboutButton
                       (world (Site.opened Site.asha))))
               (Returns Site.AboutSection)
               (snd (Site.click_on Site.AboutButton
                       (world (Site.opened Site.asha))))
               (str_of_string "Builds compilers.")
               (snd (Site.click_on Site.AboutButton
                       (world (Site.opened Site.asha))))
               eq_refl eq_refl eq_refl eq_refl eq_refl eq_refl eq_refl eq_refl).
    reflexivity.
  - apply Hempty. vm_compute. reflexivity.
Defined.

Lemma extract_profile_info_clicks_only_About_witness :
  exists evs,
    history (snd (@extract_profile_info Site.driver (Site.opened Site.asha)))
    = history (Site.opened Site.asha) ++ evs
    /\ forall e answer,
         In (Ev_click e answer) evs ->
         In (Ev_driver_find_element By_XPATH about_button_xpath (Returns e)) evs.
Proof.
  apply (@extract_profile_info_clicks_only_About Site.driver
           (Site.opened Site.asha) _
           (fst (@extract_profile_info Site.driver (Site.opened Site.asha)))).
  vm_compute. reflexivity.
Defined.

Lemma send_connect_true_after_both_clicks_witness :
  exists connect_button send_button,
    history (snd (@send_connect Site.driver (Site.opened Site.asha)))
    = history (Site.opened Site.asha) ++
        [Ev_driver_find_element By_XPATH page_connect_xpath
           (Returns connect_button);
         Ev_click connect_button (Returns tt);
         Ev_sleep 1;
         Ev_driver_find_element By_XPATH send_button_xpath
           (Returns send_button);
         Ev_click send_button (Returns tt);
         Ev_sleep 1].
Proof.
  apply (@send_connect_true_after_both_clicks Site.driver
           (Site.opened Site.asha)).
  vm_compute. reflexivity.
Defined.

Lemma send_connect_absent_controls_witness :
  fst (@send_connect Site.driver (Site.opened Site.nobody)) = Ok false
  /\ fst (@send_connect Site.driver (Site.opened Site.mina)) = Ok false.
Proof.
  split.
  - erewrite (proj1 (@send_connect_absent_controls Site.driver
                       (Site.opened Site.nobody)));
      [reflexivity | vm_compute; reflexivity].
  - erewrite (proj2 (@send_connect_absent_controls Site.driver
                       (Site.opened Site.mina)) Site.ConnectButton);
      [reflexivity | reflexivity | reflexivity | vm_compute; reflexivity].
Defined.

Lemma score_profile_airbnb_alone_witness :
  score_profile (str_of_string "Host at Airbnb") = true.
Proof.
  apply (@score_profile_airbnb_alone ascii_lower). vm_compute. reflexivity.
Defined.

Lemma score_profile_monotone_witness :
  score_profile (str_of_string "Mina Das, Developer at Google, Pune") = true.
Proof.
  apply (@score_profile_monotone ascii_lower
           (str_of_string "Developer at Google"));
    vm_compute; reflexivity.
Defined.

Lemma main_loop_loads_each_url_once_witness :
  let fresh :=
    filter (fun u => negb (contains [Site.ravi_url] u))
      (first_seen Site.revisits) in
  NoDup fresh
  /\ [Site.ravi_url; Site.asha_url; Site.mina_url] = [Site.ravi_url] ++ fresh
  /\ exists evs,
       history (snd (main_loop (wd := Site.driver) [Site.ravi_url]
                       Site.revisits (Site.start Site.pages)))
       = history (Site.start Site.pages) ++ evs
       /\ navigations evs = fresh.
Proof.
  apply (@main_loop_loads_each_url_once ascii_lower Site.driver).
  vm_compute. reflexivity.
Defined.

Lemma main_loop_driver_failure_is_navigation_witness :
  Exn (Selenium OtherWebDriverException) None
  = Exn (Selenium OtherWebDriverException) None
  /\ exists url evs,
       In url [Site.asha_url; Site.lost_url; Site.mina_url]
       /\ history (snd (main_loop (wd := Site.driver) []
                          [Site.asha_url; Site.lost_url; Site.mina_url]
                          (Site.start Site.pages)))
          = history (Site.start Site.pages) ++ evs
              ++ [Ev_get url (Throws OtherWebDriverException)].
Proof.
  apply (@main_loop_driver_failure_is_navigation ascii_lower Site.driver
           [Site.asha_url; Site.lost_url; Site.mina_url] []
           (Site.start Site.pages)).
  - vm_compute. reflexivity.
  - reflexivity.
Defined.

Lemma main_loop_after_browse_profiles_witness :
  exists evs,
    history (snd (main_loop (wd := Page.driver) []
                    [Page.b_url; str_of_string "https://www.linkedin.com/in/i"]
                    browsed))
    = history browsed ++ evs
    /\ navigations evs
       = [Page.b_url; str_of_string "https://www.linkedin.com/in/i"]
    /\ [Page.b_url; str_of_string "https://www.linkedin.com/in/i"]
       = [Page.b_url; str_of_string "https://www.linkedin.com/in/i"].
Proof.
  apply (@main_loop_after_browse_profiles ascii_digits cpython_default
           ascii_lower Page.driver
           (Page.open [Page.card_B; Page.card_A; Page.card_F; Page.card_I]));
    vm_compute; reflexivity.
Defined.

End Checks.
